(** * SpongeQuant (QTavern) orchestration core: a shallow embedding of [app.py]

    The development follows the layout of the source file:
    - [Py]      : the Python built-ins the program relies on (string methods,
                  [int()], [os.path.join]), on byte strings;
    - [Sys]     : the world the program acts on (the set of existing paths and
                  the external calls made so far) and the interface of
                  the external collaborators (child processes, the model hub,
                  the quantization libraries);
    - [Gen]     : generators, as a small monad with yielded items, exceptions
                  and world passing;
    - [App]     : the functions of [app.py], one definition per function;
    - [Sample]  : concrete collaborators, to run the program on examples;
    - [Notions] : the vocabulary of the statements;
    - the lemmas, grouped by component, and the properties of the
      specification, each after the lemmas it rests on. *)

From Stdlib Require Import String Ascii List Arith ZArith Bool Lia.
From Stdlib Require Import DecimalString.
Import ListNotations.
Local Open Scope list_scope.
Local Open Scope string_scope.

Set Implicit Arguments.

(* ================================================================== *)
(** * Python built-ins *)
(* ================================================================== *)
Module Py.

(** Strings are byte strings; the case mappings, the whitespace class, the
    digits of [int()] and the escapes of [repr()] are those of ASCII, which is
    what the program's inputs (model identifiers, quant-type tokens,
    comma-separated numbers) are made of. On a string of ASCII characters
    ([is_ascii]) the definitions below are Python's. *)

Fixpoint is_ascii (s : string) : bool :=
  match s with
  | EmptyString => true
  | String c r => Nat.ltb (nat_of_ascii c) 128 && is_ascii r
  end.

Definition is_space (c : ascii) : bool :=
  let n := nat_of_ascii c in
  (Nat.leb 9 n && Nat.leb n 13) || (Nat.leb 28 n && Nat.leb n 32).

Definition upper_char (c : ascii) : ascii :=
  let n := nat_of_ascii c in
  if Nat.leb 97 n && Nat.leb n 122 then ascii_of_nat (n - 32) else c.

Definition lower_char (c : ascii) : ascii :=
  let n := nat_of_ascii c in
  if Nat.leb 65 n && Nat.leb n 90 then ascii_of_nat (n + 32) else c.

Fixpoint map_chars (f : ascii -> ascii) (s : string) : string :=
  match s with
  | EmptyString => EmptyString
  | String c r => String (f c) (map_chars f r)
  end.

(** [str.upper()] and [str.lower()]. *)
Definition upper : string -> string := map_chars upper_char.
Definition lower : string -> string := map_chars lower_char.

(** [str.lstrip()], [str.rstrip()], [str.strip()]. *)
Fixpoint lstrip (s : string) : string :=
  match s with
  | EmptyString => EmptyString
  | String c r => if is_space c then lstrip r else s
  end.

Fixpoint rstrip (s : string) : string :=
  match s with
  | EmptyString => EmptyString
  | String c r =>
      match rstrip r with
      | EmptyString => if is_space c then EmptyString else String c EmptyString
      | r' => String c r'
      end
  end.

Definition strip (s : string) : string := rstrip (lstrip s).

(** Truthiness of a string: [if s:]. *)
Definition truthy (s : string) : bool :=
  match s with EmptyString => false | _ => true end.

(** [s.startswith(p)] and [s.endswith(p)]. *)
Definition startswith (p s : string) : bool := String.prefix p s.

Definition endswith (p s : string) : bool :=
  let n := String.length s in
  let k := String.length p in
  Nat.leb k n && String.eqb (substring (n - k) k s) p.

(** [s.split(sep)] for a one-character separator: always at least one
    field. *)
Fixpoint split (sep : ascii) (s : string) : list string :=
  match s with
  | EmptyString => [EmptyString]
  | String c r =>
      if Ascii.eqb c sep then EmptyString :: split sep r
      else match split sep r with
           | [] => [String c EmptyString]
           | f :: fs => String c f :: fs
           end
  end.

(** [s.split(sep, 1)]: cut at the first separator only. *)
Fixpoint split1 (sep : ascii) (s : string) : list string :=
  match s with
  | EmptyString => [EmptyString]
  | String c r =>
      if Ascii.eqb c sep then [EmptyString; r]
      else match split1 sep r with
           | [] => [String c EmptyString]
           | f :: fs => String c f :: fs
           end
  end.

(** [s.split("/")[-1]]. *)
Definition last_segment (s : string) : string :=
  List.last (split "/" s) EmptyString.

(** [s.replace(" ", "")]. *)
Fixpoint remove_spaces (s : string) : string :=
  match s with
  | EmptyString => EmptyString
  | String c r =>
      if Ascii.eqb c " " then remove_spaces r else String c (remove_spaces r)
  end.

(** Iterating over a string yields its characters, each a string of length
    one. *)
Fixpoint chars (s : string) : list string :=
  match s with
  | EmptyString => []
  | String c r => String c EmptyString :: chars r
  end.

(** [s.splitlines()]: the line boundaries are LF, CR, CR LF, VT, FF, FS, GS
    and RS; no empty last line is produced for a trailing boundary. *)
Definition is_linebreak (c : ascii) : bool :=
  let n := nat_of_ascii c in
  (Nat.leb 10 n && Nat.leb n 13) || (Nat.leb 28 n && Nat.leb n 30).

Fixpoint splitlines_from (cur : string) (s : string) : list string :=
  match s with
  | EmptyString => if truthy cur then [cur] else []
  | String c r =>
      if is_linebreak c then
        match c, r with
        | "013"%char, String "010"%char r' => cur :: splitlines_from EmptyString r'
        | _, _ => cur :: splitlines_from EmptyString r
        end
      else splitlines_from (cur ++ String c EmptyString) r
  end.

Definition splitlines (s : string) : list string := splitlines_from EmptyString s.

(** [str(n)] for an integer. *)
Definition str_int (n : Z) : string := NilZero.string_of_int (Z.to_int n).

(** [str(b)] for a boolean. *)
Definition str_bool (b : bool) : string := if b then "True" else "False".

(** [int(s)], base ten: surrounding whitespace, an optional sign, then
    decimal digits, where single underscores may separate digits. *)
Definition digit_of (c : ascii) : option Z :=
  let n := nat_of_ascii c in
  if Nat.leb 48 n && Nat.leb n 57 then Some (Z.of_nat (n - 48)) else None.

(** [digits acc after_digit s]: [after_digit] tells that the previous
    character was a digit, so that an underscore or the end is allowed. *)
Fixpoint digits (acc : Z) (after_digit : bool) (s : string) : option Z :=
  match s with
  | EmptyString => if after_digit then Some acc else None
  | String c r =>
      match digit_of c with
      | Some d => digits (10 * acc + d) true r
      | None =>
          if Ascii.eqb c "_" && after_digit then digits acc false r else None
      end
  end.

Definition int (s : string) : option Z :=
  match strip s with
  | String "-" r => option_map Z.opp (digits 0 false r)
  | String "+" r => digits 0 false r
  | r => digits 0 false r
  end.

(** [os.path.join(a, b)] on POSIX. *)
Definition path_join (a b : string) : string :=
  if startswith "/" b then b
  else if negb (truthy a) || endswith "/" a then a ++ b
  else a ++ "/" ++ b.

(** [s[n:]]. *)
Definition drop (n : nat) (s : string) : string :=
  substring n (String.length s - n) s.

(** [" ".join(l)]. *)
Definition join_spaces (l : list string) : string := String.concat " " l.

(** The line feed and the double quote, which string literals cannot hold. *)
Definition nl : string := String (ascii_of_nat 10) EmptyString.
Definition dq : string := String (ascii_of_nat 34) EmptyString.

(** [repr(s)]: [s] between apostrophes, or between double quotes when it
    holds an apostrophe and no double quote; the backslash and the enclosing
    quote are escaped, the control characters are written [\n], [\r], [\t]
    or [\xNN]. *)
Fixpoint has_char (c : ascii) (s : string) : bool :=
  match s with
  | EmptyString => false
  | String d r => Ascii.eqb d c || has_char c r
  end.

Definition hex_digit (n : nat) : ascii :=
  ascii_of_nat (if Nat.ltb n 10 then 48 + n else 87 + n).

Definition escape (quote c : ascii) : string :=
  let n := nat_of_ascii c in
  let backslash := ascii_of_nat 92 in
  if Nat.eqb n 92 then String backslash (String backslash EmptyString)
  else if Ascii.eqb c quote then String backslash (String c EmptyString)
  else if Nat.eqb n 10 then String backslash "n"
  else if Nat.eqb n 13 then String backslash "r"
  else if Nat.eqb n 9 then String backslash "t"
  else if Nat.ltb n 32 || Nat.eqb n 127 then
    String backslash
      (String "x" (String (hex_digit (n / 16)) (String (hex_digit (n mod 16)) EmptyString)))
  else String c EmptyString.

Fixpoint escape_all (quote : ascii) (s : string) : string :=
  match s with
  | EmptyString => EmptyString
  | String c r => escape quote c ++ escape_all quote r
  end.

Definition repr (s : string) : string :=
  let quote := if has_char "'" s && negb (has_char (ascii_of_nat 34) s)
               then ascii_of_nat 34 else "'"%char in
  String quote (escape_all quote s ++ String quote EmptyString).

(** The text of the [ValueError] of [int(s)]: it shows the first 200
    characters of [repr(s)]. *)
Definition int_error (s : string) : string :=
  "invalid literal for int() with base 10: " ++ substring 0 200 (repr s).

End Py.

(* ================================================================== *)
(** * The world and the external collaborators *)
(* ================================================================== *)
Module Sys.

(** Python exceptions: the class, as far as [except] clauses tell classes
    apart, and the text [str(e)] that the program formats into the
    transcript. All are subclasses of [Exception]. *)
Inductive ExnKind := ImportError | ValueError | OSError | RuntimeError.

Record Exn := mkExn { kind : ExnKind; message : string }.

Definition is_import_error (e : Exn) : bool :=
  match kind e with ImportError => true | _ => false end.

(** A Python float is only parsed, handed to a library and printed, never
    computed with: it is represented by its canonical [repr]. *)
Record PyFloat := mkFloat { float_repr : string }.

(** The file system is the set of paths that exist, each under a name the
    way the program writes names (from the working directory, or from the
    root); the program only asks for existence, lists a directory and deletes
    trees. Names are resolved as on a POSIX file system without symbolic
    links. The place of the working directory under the root is not part of
    the model, so a name from the root and a name from the working directory
    never designate the same place; nor is the kind of a path, so a name that
    goes on after a regular file ([file/], [file/..]) is resolved as if the
    file were a directory. *)
Definition FS := list string.

(** The name of a directory entry: not empty, not [.] or [..], without [/]. *)
Fixpoint has_slash (s : string) : bool :=
  match s with
  | EmptyString => false
  | String c r => Ascii.eqb c "/" || has_slash r
  end.

Definition ordinary (s : string) : bool :=
  negb (String.eqb s "" || String.eqb s "." || String.eqb s "..").

Definition is_name (s : string) : bool := ordinary s && negb (has_slash s).

(** A path name is read segment by segment from the working directory, or
    from the root when it starts with [/]. The position reached is a stack of
    names, innermost first; [..] on the stack are steps above the working
    directory and [/] at its bottom is the root. An empty segment or [.]
    stays where it is, [..] goes to the parent. *)
Definition step (stack : list string) (seg : string) : list string :=
  if String.eqb seg "" || String.eqb seg "." then stack
  else if String.eqb seg ".." then
    match stack with
    | [] => [".."]
    | top :: below =>
        if String.eqb top ".." then ".." :: stack
        else if String.eqb top "/" then stack
        else below
    end
  else seg :: stack.

Definition start (p : string) : list string :=
  if Py.startswith "/" p then ["/"] else [].

(** The place a path name designates, outermost name first. *)
Definition norm (p : string) : list string :=
  rev (fold_left step (Py.split "/" p) (start p)).

Definition same_place (a b : list string) : bool :=
  if list_eq_dec string_dec a b then true else false.

(** Two names of the same place. *)
Definition same_path (a b : string) : bool := same_place (norm a) (norm b).

(** [holds fs n]: an entry of the file system is at place [n]. *)
Definition holds (fs : FS) (n : list string) : bool :=
  existsb (fun e => same_place (norm e) n) fs.

(** The working directory, its ancestors and the root are always there. *)
Definition present (fs : FS) (stack : list string) : bool :=
  match stack with
  | [] => true
  | top :: _ => String.eqb top ".." || String.eqb top "/" || holds fs (rev stack)
  end.

(** Following the segments: [..] can only be taken from a place that is
    there, and the place reached at the end has to be there. *)
Fixpoint reach (fs : FS) (stack : list string) (segs : list string) : bool :=
  match segs with
  | [] => present fs stack
  | seg :: rest =>
      (if String.eqb seg ".." then present fs stack else true)
      && reach fs (step stack seg) rest
  end.

(** [os.path.exists(p)]; the empty name designates nothing. *)
Definition path_exists (p : string) (fs : FS) : bool :=
  Py.truthy p && reach fs (start p) (Py.split "/" p).

Definition touch (p : string) (fs : FS) : FS :=
  if path_exists p fs then fs else p :: fs.

Fixpoint leading_dots (n : list string) : nat :=
  match n with
  | s :: rest => if String.eqb s ".." then S (leading_dots rest) else 0
  | [] => 0
  end.

Fixpoint starts_with (pre l : list string) : bool :=
  match pre, l with
  | [], _ => true
  | a :: pre', b :: l' => String.eqb a b && starts_with pre' l'
  | _ :: _, [] => false
  end.

(** [within nd np]: the place [np] is [nd] or lies in the tree rooted at
    [nd]. When [nd] is the working directory or one of its ancestors, that
    tree holds every place named relatively that does not climb higher. *)
Definition within (nd np : list string) : bool :=
  if forallb (String.eqb "..") nd
  then negb (starts_with ["/"] np) && Nat.leb (leading_dots np) (List.length nd)
  else starts_with nd np.

(** [under d p]: [p] is [d] or lies inside the tree rooted at [d]. *)
Definition under (d p : string) : bool := within (norm d) (norm p).

(** All the paths [os.makedirs(p, exist_ok=True)] makes sure exist: [p] and
    its ancestors. *)
Fixpoint ancestors_from (pre : string) (segs : list string) : list string :=
  match segs with
  | [] => []
  | seg :: rest =>
      let here := if Py.truthy pre then pre ++ "/" ++ seg else seg in
      ((if Py.truthy seg then [here] else []) ++ ancestors_from here rest)%list
  end.

Definition makedirs (p : string) (fs : FS) : FS :=
  fold_left (fun acc d => touch d acc) (ancestors_from "" (Py.split "/" p)) fs.

(** The entry names of directory [d], as [os.listdir(d)] gives them. *)
Fixpoint below (nd np : list string) : option (list string) :=
  match nd, np with
  | [], _ => Some np
  | a :: nd', b :: np' => if String.eqb a b then below nd' np' else None
  | _ :: _, [] => None
  end.

Definition entry_name (d p : string) : option string :=
  match below (norm d) (norm p) with
  | Some [n] => if String.eqb n ".." || String.eqb n "/" then None else Some n
  | _ => None
  end.

Fixpoint entries (d : string) (fs : FS) : list string :=
  match fs with
  | [] => []
  | p :: rest =>
      match entry_name d p with
      | Some n => n :: entries d rest
      | None => entries d rest
      end
  end.

Definition listdir (d : string) (fs : FS) : list string :=
  nodup string_dec (entries d fs).

(** The calls that leave the program and that the properties below are
    about. *)
Inductive Call :=
| Popen (command : string)            (* [subprocess.Popen(command, shell=True)] *)
| SnapshotDownload (repo_id : string) (* [snapshot_download(repo_id=...)] *)
| CreateRepo (repo_id : string)       (* [create_repo(repo_id=...)] *)
| Rmtree (path : string).             (* [shutil.rmtree(path)] *)

(** The world: the file system, and the calls made so far, oldest first. *)
Record World := mkWorld {
  fs : FS;
  calls : list Call
}.

Definition set_fs (f : FS) (w : World) : World := mkWorld f (calls w).

Definition log_call (c : Call) (w : World) : World := mkWorld (fs w) (calls w ++ [c]).

(** What [run_command]'s loop observes of a child process that was started,
    whose output decodes and that exits:
    [reads] are the results of the successive [readline()] calls made while
    the loop runs (an empty one is a call that found nothing while [poll()]
    was still [None]); the loop ends at the first call that finds nothing
    with [poll()] giving [returncode]; [remaining] is what [read()] gives
    then. A child that never exits is outside the model. *)
Record Process := mkProcess {
  reads : list string;
  remaining : string;
  returncode : Z
}.

(** In general, starting the child may raise ([OSError], or [ValueError]
    for a command that holds a null byte), and so may each [readline()] and
    the final [read()], which decode the output of the child ([text=True]; a
    [UnicodeDecodeError] is a [ValueError]). A pipe gives the results of the
    successive [readline()] calls up to the one that ends the loop, the
    result of [read()], and the exit code. *)
Record Pipe := mkPipe {
  readlines : list (Exn + string);
  rest : Exn + string;
  exit_code : Z
}.

(** Starting a command in a world gives a pipe, or raises, and leaves a file
    system. *)
Definition Launcher := string -> World -> (Exn + Pipe) * FS.

(** The pipe of a child that was started and whose output decodes. *)
Definition decoded (p : Process) : Pipe :=
  mkPipe (map inr (reads p)) (inr (remaining p)) (returncode p).

(** The one library value the program looks at: a configuration's
    [rope_scaling], which it prints with [str] and tests with
    [isinstance(_, dict)]. *)
Inductive PyVal :=
| PyNone
| PyDict (shown : string)
| PyOther (shown : string).

Definition str_val (v : PyVal) : string :=
  match v with PyNone => "None" | PyDict s => s | PyOther s => s end.

Definition is_dict (v : PyVal) : bool :=
  match v with PyDict _ => true | _ => false end.

(** In-process library calls of the GPTQ, AWQ and HQQ executors. Loading a
    configuration or a model gives its [rope_scaling]; the value of the other
    calls is not used. *)
Inductive LibCall :=
| Import (module : string)
| TokenizerFromPretrained (src : string)
| ConfigFromPretrained (src : string)
| GPTQMakeConfig (bits : Z) (damp : PyFloat)
| GPTQLoadModel (src : string)
| AWQLoadModel (src : string)
| AWQQuantize (bits group_size : Z) (version : string) (zero_point : bool)
| HQQMakeConfig (bits group_size : Z)
| HQQLoadModel (model_id : string)
| HQQQuantize
| SaveModel (folder : string)
| SaveTokenizer (folder : string).

(** The external collaborators. Each one sees the world it is called in; the
    ones that write to disk give the file system they leave. *)
Record Env := mkEnv {
  sys_executable : string;
  py_float : string -> option PyFloat;
  popen : string -> World -> Process * FS;
  list_repo_files : string -> string -> World -> Exn + list string;
  snapshot_download : string -> string -> string -> World -> (Exn + string) * FS;
  write_card : string -> string -> string -> string -> string -> World -> option Exn;
  create_repo : string -> string -> World -> option Exn;
  upload_folder : string -> string -> string -> World -> option Exn;
  lib : LibCall -> World -> (Exn + PyVal) * FS;
  rmtree_failure : string -> World -> option (Exn * (string -> bool));
  listdir_failure : string -> World -> option Exn
}.

(** The child processes of these collaborators start, and their output
    decodes. *)
Definition started (E : Env) : Launcher :=
  fun command w => let '(p, fs') := popen E command w in (inr (decoded p), fs').

End Sys.

(* ================================================================== *)
(** * Generators *)
(* ================================================================== *)
Module Gen.
Import Sys.

(** A generator run to its end: the items it yielded, in order, how it ended
    (a normal return or an exception leaving it), and the world it leaves. *)
Inductive Outcome (A : Type) :=
| Done (a : A)
| Raised (e : Exn).
Arguments Raised {A} e.

Record Run (A : Type) := mkRun {
  yielded : list string;
  outcome : Outcome A;
  final : World
}.

Definition t (A : Type) := World -> Run A.

Definition ret {A} (a : A) : t A := fun w => mkRun [] (Done a) w.

Definition bind {A B} (m : t A) (k : A -> t B) : t B :=
  fun w =>
    let r := m w in
    match outcome r with
    | Done a =>
        let r' := k a (final r) in
        mkRun (yielded r ++ yielded r') (outcome r') (final r')
    | Raised e => mkRun (yielded r) (Raised e) (final r)
    end.

Definition yield (s : string) : t unit := fun w => mkRun [s] (Done tt) w.

Definition raise {A} (e : Exn) : t A := fun w => mkRun [] (Raised e) w.

(** Running [m] inside a [try]: an exception leaving [m] becomes a value. *)
Definition attempt {A} (m : t A) : t (Exn + A) :=
  fun w =>
    let r := m w in
    match outcome r with
    | Done a => mkRun (yielded r) (Done (inr a)) (final r)
    | Raised e => mkRun (yielded r) (Done (inl e)) (final r)
    end.

(** [try: m  except Exception as e: h e]. *)
Definition try_except (m : t unit) (h : Exn -> t unit) : t unit :=
  bind (attempt m) (fun r => match r with inl e => h e | inr _ => ret tt end).

Definition get_world : t World := fun w => mkRun [] (Done w) w.

Definition put_world (w' : World) : t unit := fun _ => mkRun [] (Done tt) w'.

(** An external call that may raise and leaves a file system. *)
Definition call {A} (f : World -> (Exn + A) * FS) : t A :=
  fun w =>
    let '(res, fs') := f w in
    match res with
    | inl e => mkRun [] (Raised e) (set_fs fs' w)
    | inr a => mkRun [] (Done a) (set_fs fs' w)
    end.

(** [for x in l: body x]. *)
Fixpoint for_each {A} (l : list A) (body : A -> t unit) : t unit :=
  match l with
  | [] => ret tt
  | x :: rest => bind (body x) (fun _ => for_each rest body)
  end.

(** [for line in s: yield line] for a string [s]. *)
Definition yield_all (l : list string) : t unit := for_each l yield.

End Gen.

Declare Scope gen_scope.
Delimit Scope gen_scope with gen.
Notation "x <- m ;; k" := (Gen.bind m (fun x => k))
  (at level 61, m at next level, right associativity) : gen_scope.
Notation "m ;; k" := (Gen.bind m (fun _ => k))
  (at level 61, right associativity) : gen_scope.

(* ================================================================== *)
(** * The program *)
(* ================================================================== *)
Module App.
Import Sys.
Import Gen.
Local Open Scope gen_scope.

(** The importance-matrix knobs of the form, passed along unchanged from the
    orchestrator to [compute_imatrix_file]. *)
Record Imatrix := mkImatrix {
  imatrix_file : string;
  calibration_file : string;
  recompute_imatrix : bool;
  imatrix_process_output : bool;
  imatrix_verbosity : Z;
  imatrix_no_ppl : bool;
  imatrix_chunk : Z;
  imatrix_output_frequency : Z;
  imatrix_save_frequency : Z;
  imatrix_in_files : string;
  imatrix_ngl : Z
}.

(** The arguments of [quant_tavern_ui]. *)
Record Form := mkForm {
  model_ids : string;
  hf_token : string;
  username : string;
  gguf_sel : bool;       gguf_param : string;
  gptq_sel : bool;       gptq_param : string;
  exllamav2_sel : bool;  exllamav2_param : string;
  awq_sel : bool;        awq_param : string;
  hqq_sel : bool;        hqq_param : string;
  enable_imatrix : bool;
  imatrix : Imatrix;
  delete_original : bool;
  delete_quantized : bool
}.

Definition when (b : bool) (m : Gen.t unit) : Gen.t unit :=
  if b then m else ret tt.

Section Runner.
Variable launch : Launcher.

(** [subprocess.Popen(command, shell=True, ...)]. *)
Definition spawn (command : string) : Gen.t Pipe :=
  fun w =>
    let '(res, fs') := launch command w in
    let w' := set_fs fs' (log_call (Popen command) w) in
    match res with
    | inl e => mkRun [] (Raised e) w'
    | inr p => mkRun [] (Done p) w'
    end.

(** The value of a call that may raise. *)
Definition result {A} (r : Exn + A) : Gen.t A :=
  match r with
  | inl e => raise e
  | inr a => ret a
  end.

(** The [while True] loop of [run_command], on the results of the successive
    [readline()] calls. *)
Fixpoint drain (lines : list (Exn + string)) : Gen.t unit :=
  match lines with
  | [] => ret tt
  | r :: more =>
      line <- result r ;;
      when (Py.truthy line) (yield line) ;;
      drain more
  end.

Definition run_command (command : string) : Gen.t unit :=
  yield ("[DEBUG] Executing command: " ++ command ++ Py.nl) ;;
  process <- spawn command ;;
  drain (readlines process) ;;
  remaining <- result (rest process) ;;
  when (Py.truthy remaining) (yield remaining) ;;
  when (negb (Z.eqb (exit_code process) 0))
    (yield ("[ERROR] Command returned non-zero exit code: "
            ++ Py.str_int (exit_code process) ++ Py.nl)).

End Runner.

Section WithEnv.
Variable E : Env.

(** [patch_model_config]: rewrites the content of an existing [config.json],
    prints to the console and catches every exception; it creates and removes
    no path and adds nothing to the transcript. *)
Definition patch_model_config (model_dir : string) : Gen.t unit := ret tt.

(** [run_command] as the executors below meet it: on the child processes
    of the collaborators [E]. *)
Definition run (command : string) : Gen.t unit := run_command (started E) command.

Definition build_llama_cmd (script_name : string) (args : list string) : string :=
  if Py.endswith ".py" script_name then
    let script_path := Py.path_join "llama_cpp" script_name in
    Py.dq ++ sys_executable E ++ Py.dq ++ " " ++ Py.dq ++ script_path ++ Py.dq ++ " "
    ++ Py.join_spaces args
  else
    let exec_path :=
      Py.path_join (Py.path_join (Py.path_join "llama_cpp" "build") "bin") script_name in
    Py.dq ++ exec_path ++ Py.dq ++ Py.join_spaces args.

Definition compute_imatrix_file (model_file calibration imatrix_output : string)
    (process_output : bool) (verbosity : Z) (no_ppl : bool)
    (chunk output_frequency save_frequency : Z) (in_files : list string) (ngl : Z)
    : Gen.t unit :=
  yield ("[INFO] Computing imatrix file for model " ++ model_file
         ++ " using calibration data from " ++ calibration ++ Py.nl) ;;
  let cmd_parts :=
    (["llama-imatrix";
      "-m"; model_file;
      "-f"; calibration;
      "-o"; imatrix_output;
      "--chunk"; Py.str_int chunk;
      "-ngl"; Py.str_int ngl;
      "--output-frequency"; Py.str_int output_frequency;
      "--save-frequency"; Py.str_int save_frequency;
      "--verbosity"; Py.str_int verbosity]
     ++ (if process_output then ["--process-output"] else [])
     ++ (if no_ppl then ["--no-ppl"] else [])
     ++ flat_map (fun in_file => ["--in-file"; in_file]) in_files)%list in
  let cmd := build_llama_cmd (hd "" cmd_parts) (tl cmd_parts) in
  yield ("[INFO] Running imatrix command:" ++ Py.nl ++ "  " ++ cmd ++ Py.nl) ;;
  run cmd.

Definition is_model_fully_downloaded (model_id target_dir token : string)
    (w : World) : bool :=
  match list_repo_files E model_id token w with
  | inr model_files =>
      forallb (fun file => path_exists (Py.path_join target_dir file) (fs w))
              model_files
  | inl _ => false
  end.

(** [snapshot_download(repo_id=model_id, token=..., local_dir=target_dir, ...)]. *)
Definition do_snapshot_download (model_id token target_dir : string) : Gen.t string :=
  fun w => call (snapshot_download E model_id token target_dir) (log_call (SnapshotDownload model_id) w).

Definition download_model (model_id token : string) : Gen.t unit :=
  let model_name := Py.last_segment model_id in
  let target_dir := Py.path_join "models" model_name in
  yield ("=== Downloading Model ===" ++ Py.nl) ;;
  yield ("[INFO] Model ID: " ++ model_id ++ Py.nl) ;;
  yield ("[INFO] Target directory: " ++ target_dir ++ Py.nl) ;;
  w <- get_world ;;
  skip <-
    (if path_exists target_dir (fs w) then
       if is_model_fully_downloaded model_id target_dir token w then
         yield ("[INFO] Model " ++ model_id ++ " is already fully downloaded at "
                ++ target_dir ++ ". Skipping download." ++ Py.nl) ;;
         ret true
       else
         yield ("[WARN] Model directory exists but files appear incomplete. Re-downloading..."
                ++ Py.nl) ;;
         ret false
     else
       yield ("[INFO] Model directory does not exist. Starting download..." ++ Py.nl) ;;
       ret false) ;;
  if (skip : bool) then ret tt
  else
    try_except
      (yield ("[INFO] Downloading model " ++ model_id ++ "..." ++ Py.nl) ;;
       model_path <- do_snapshot_download model_id token target_dir ;;
       patch_model_config target_dir ;;
       yield ("[INFO] Model downloaded and patched at: " ++ model_path ++ Py.nl))
      (fun e => yield ("[ERROR] Error downloading model: " ++ message e ++ Py.nl)).

Definition format_quant_type (qtype : string) : string :=
  if Py.startswith "i1-" (Py.lower qtype) then
    match Py.split1 "-" qtype with
    | [_; rest] => "i1-" ++ Py.upper rest
    | _ => Py.lower qtype
    end
  else Py.upper qtype.

(** [upload_quant] is an ordinary function: it catches what its two [try]
    blocks raise and returns the text it has gathered. The model card
    (random picture and sound, YAML header) is the collaborator
    [write_card], which stands for [generate_custom_model_card] and the
    writing of [README.md]. *)
Definition upload_quant (model_id base_model_name quantization_type save_folder
                         token user : string) (w : World) : string * World :=
  let repo_id := user ++ "/" ++ base_model_name ++ "-"
                 ++ format_quant_type quantization_type in
  let log := "[INFO] Preparing to upload quantized model to repo: " ++ repo_id ++ Py.nl in
  let card_path := Py.path_join save_folder "README.md" in
  let '(log, w) :=
    match write_card E model_id base_model_name quantization_type user save_folder w with
    | None =>
        (log ++ "[INFO] Created custom model card for " ++ repo_id ++ " at "
             ++ card_path ++ Py.nl,
         set_fs (touch card_path (fs w)) w)
    | Some e => (log ++ "[ERROR] Error creating custom model card: " ++ message e ++ Py.nl, w)
    end in
  match create_repo E repo_id token w with
  | None =>
      let w := log_call (CreateRepo repo_id) w in
      let log := log ++ "[INFO] Repo " ++ repo_id ++ " is ready. Uploading folder "
                     ++ save_folder ++ "..." ++ Py.nl in
      match upload_folder E save_folder repo_id token w with
      | None => (log ++ "[INFO] Uploaded quantized model to " ++ repo_id ++ Py.nl, w)
      | Some e => (log ++ "[ERROR] Error uploading model: " ++ message e ++ Py.nl, w)
      end
  | Some e =>
      (log ++ "[ERROR] Error uploading model: " ++ message e ++ Py.nl,
       log_call (CreateRepo repo_id) w)
  end.

(** [for line in upload_quant(...): yield line]: the returned text is
    iterated character by character. *)
Definition relay_upload (model_id base_model_name quantization_type save_folder
                         token user : string) : Gen.t unit :=
  fun w =>
    let '(log, w') := upload_quant model_id base_model_name quantization_type
                                   save_folder token user w in
    yield_all (Py.chars log) w'.

(** ** GGUF *)

Definition do_makedirs (p : string) : Gen.t unit :=
  fun w => mkRun [] (Done tt) (set_fs (makedirs p (fs w)) w).

(** The conversion to the base precision (the first [if] of
    [quantize_gguf]). *)
Definition gguf_convert (model_dir out_file : string) : Gen.t unit :=
  w <- get_world ;;
  if negb (path_exists out_file (fs w)) then
    let cmd := build_llama_cmd "convert_hf_to_gguf.py"
                 [model_dir; "--outtype"; "bf16"; "--outfile"; out_file] in
    yield ("[INFO] Running conversion command:" ++ Py.nl ++ "  " ++ cmd ++ Py.nl) ;;
    run cmd
  else
    yield ("[INFO] File " ++ out_file ++ " already exists. Skipping conversion." ++ Py.nl).

(** The importance-matrix step ([if use_imatrix:]). *)
Definition gguf_imatrix (use_imatrix : bool) (I : Imatrix) (out_file : string)
    : Gen.t unit :=
  when use_imatrix
    (let in_files_list :=
       if Py.truthy (Py.strip (imatrix_in_files I))
       then filter Py.truthy (map Py.strip (Py.split "," (imatrix_in_files I)))
       else [] in
     w <- get_world ;;
     when (recompute_imatrix I || negb (path_exists (imatrix_file I) (fs w)))
       (compute_imatrix_file out_file (calibration_file I) (imatrix_file I)
          (imatrix_process_output I) (imatrix_verbosity I) (imatrix_no_ppl I)
          (imatrix_chunk I) (imatrix_output_frequency I) (imatrix_save_frequency I)
          in_files_list (imatrix_ngl I))).

(** The output file and the command line of one quant type. *)
Definition gguf_quant_cmd (use_imatrix : bool) (imatrix_path save_folder
                           base_model_name out_file method_str : string)
    : string * string :=
  if use_imatrix then
    let qtype := Py.path_join save_folder
                   (Py.lower base_model_name ++ "-i1-" ++ method_str ++ ".gguf") in
    (qtype, build_llama_cmd "llama-quantize"
              ["--imatrix"; imatrix_path; out_file; qtype; method_str])
  else
    let qtype := Py.path_join save_folder
                   (Py.lower base_model_name ++ "-" ++ method_str ++ ".gguf") in
    (qtype, build_llama_cmd "llama-quantize" [out_file; qtype; method_str]).

(** One turn of [for method in quant_methods]. *)
Definition gguf_quantize_one (use_imatrix : bool) (imatrix_path save_folder
                              base_model_name out_file method : string)
    : Gen.t unit :=
  let method_str := Py.upper (Py.strip method) in
  if Py.startswith "IQ" method_str && negb use_imatrix then
    yield ("[WARN] Skipping " ++ method_str
           ++ " quantization because imatrix is not enabled." ++ Py.nl)
  else
    let '(qtype, cmd) := gguf_quant_cmd use_imatrix imatrix_path save_folder
                           base_model_name out_file method_str in
    yield ("[INFO] Quantizing with method '" ++ method_str ++ "':" ++ Py.nl
           ++ "  " ++ cmd ++ Py.nl) ;;
    run cmd.

Definition quantize_gguf (model_id additional_param token user : string)
    (use_imatrix : bool) (I : Imatrix) : Gen.t unit :=
  let base_model_name := Py.strip (Py.last_segment model_id) in
  let model_dir := Py.path_join "models" base_model_name in
  let save_folder := Py.path_join "quantized_models" (base_model_name ++ "-GGUF") in
  do_makedirs save_folder ;;
  let out_file := Py.path_join save_folder (Py.lower base_model_name ++ ".bf16.gguf") in
  yield ("=== GGUF Quantization for " ++ base_model_name ++ " ===" ++ Py.nl) ;;
  yield ("[INFO] Expected output file: " ++ out_file ++ Py.nl) ;;
  gguf_convert model_dir out_file ;;
  gguf_imatrix use_imatrix I out_file ;;
  let quant_methods := Py.split "," (Py.remove_spaces additional_param) in
  for_each quant_methods
    (gguf_quantize_one use_imatrix (imatrix_file I) save_folder base_model_name out_file) ;;
  let repo_quant_type := if use_imatrix then "i1-GGUF" else "GGUF" in
  yield ("[INFO] Uploading GGUF quantized model..." ++ Py.nl) ;;
  relay_upload model_id base_model_name repo_quant_type save_folder token user.

(** ** Parsing the numeric fields *)

Definition parse_int (s : string) : Gen.t Z :=
  match Py.int s with
  | Some z => ret z
  | None =>
      raise (mkExn ValueError (Py.int_error s))
  end.

Definition parse_float (s : string) : Gen.t PyFloat :=
  match py_float E s with
  | Some f => ret f
  | None => raise (mkExn ValueError ("could not convert string to float: " ++ Py.repr s))
  end.

Definition field (parts : list string) (i : nat) : string := nth i parts "".

(** ** GPTQ *)

Definition gptq_defaults : Z * Z * PyFloat := (4%Z, 128%Z, mkFloat "0.1").

(** The parameter block of [quantize_gptq] ([defaults = ...] up to the
    [Using GPTQ parameters] line). *)
Definition gptq_params (additional_param : string) : Gen.t (Z * Z * PyFloat) :=
  if Py.truthy (Py.strip additional_param) then
    let parts := map Py.strip (Py.split "," additional_param) in
    if Nat.leb 3 (List.length parts) then
      bits <- parse_int (field parts 0) ;;
      group_size <- parse_int (field parts 1) ;;
      damp_percent <- parse_float (field parts 2) ;;
      ret (bits, group_size, damp_percent)
    else
      yield ("[WARN] Insufficient GPTQ parameters provided. Using defaults: [4, 128, 0.1]"
             ++ Py.nl) ;;
      ret gptq_defaults
  else ret gptq_defaults.

Definition lib_call (c : LibCall) : Gen.t PyVal := call (lib E c).

Definition quantize_gptq (model_id additional_param token user : string) : Gen.t unit :=
  imported <- attempt (lib_call (Import "transformers")) ;;
  match imported with
  | inl e =>
      if is_import_error e then
        yield ("[ERROR] GPU-specific quantization (GPTQ) requires the 'transformers' package. Please use a GPU container or install the dependency."
               ++ Py.nl)
      else raise e
  | inr _ =>
      yield ("=== GPTQ Quantization ===" ++ Py.nl) ;;
      params <- gptq_params additional_param ;;
      let '(bits, group_size, damp_percent) := params in
      yield ("[INFO] Using GPTQ parameters: bits=" ++ Py.str_int bits
             ++ ", group_size=" ++ Py.str_int group_size
             ++ ", damp_percent=" ++ float_repr damp_percent ++ Py.nl) ;;
      let base_model_name := Py.last_segment model_id in
      let local_dir := Py.path_join "models" base_model_name in
      yield ("[INFO] Loading tokenizer from local model directory..." ++ Py.nl) ;;
      lib_call (TokenizerFromPretrained local_dir) ;;
      yield ("[INFO] Loading patched configuration from local model directory..." ++ Py.nl) ;;
      patch_model_config local_dir ;;
      rope <- lib_call (ConfigFromPretrained local_dir) ;;
      yield ("[DEBUG] Patched config rope_scaling: " ++ str_val rope ++ Py.nl) ;;
      yield ("[INFO] Initializing GPTQ configuration..." ++ Py.nl) ;;
      lib_call (GPTQMakeConfig bits damp_percent) ;;
      yield ("[INFO] Loading model with integrated GPTQ configuration..." ++ Py.nl) ;;
      model_rope <- lib_call (GPTQLoadModel local_dir) ;;
      yield ("[DEBUG] Loaded model config rope_scaling: " ++ str_val model_rope ++ Py.nl) ;;
      yield ("[DEBUG] After override, model config rope_scaling: " ++ str_val rope ++ Py.nl) ;;
      let save_folder := Py.path_join "quantized_models" (base_model_name ++ "-GPTQ") in
      yield ("[INFO] Saving quantized model to " ++ save_folder ++ "..." ++ Py.nl) ;;
      lib_call (SaveModel save_folder) ;;
      lib_call (SaveTokenizer save_folder) ;;
      yield ("[INFO] GPTQ quantization completed." ++ Py.nl) ;;
      relay_upload model_id base_model_name "GPTQ" save_folder token user
  end.

(** ** ExLlamaV2 *)

Definition exl2_default : PyFloat := mkFloat "4.5".

Definition exl2_params (additional_param : string) : Gen.t PyFloat :=
  if Py.truthy (Py.strip additional_param) then parse_float additional_param
  else ret exl2_default.

Definition quantize_exllamav2 (model_id additional_param token user : string)
    : Gen.t unit :=
  try_except
    (yield ("=== ExLlamaV2 Quantization ===" ++ Py.nl) ;;
     bpw <- exl2_params additional_param ;;
     let base_model_name := Py.last_segment model_id in
     let model_dir := Py.path_join "models" base_model_name in
     let save_folder := Py.path_join "quantized_models" (base_model_name ++ "-EXL2") in
     let cmd := Py.dq ++ sys_executable E ++ Py.dq ++ " " ++ Py.dq
                ++ "/app/exllamav2/convert.py" ++ Py.dq ++ " -i " ++ model_dir
                ++ " -o " ++ save_folder ++ " -b " ++ float_repr bpw in
     yield ("[INFO] Running ExLlamaV2 command:" ++ Py.nl ++ "  " ++ cmd ++ Py.nl) ;;
     run cmd ;;
     yield ("[INFO] ExLlamaV2 quantization completed." ++ Py.nl) ;;
     relay_upload model_id base_model_name "exl2" save_folder token user)
    (fun e => yield ("[ERROR] Error during ExLlamaV2 quantization: " ++ message e ++ Py.nl)).

(** ** AWQ *)

Definition awq_defaults : Z * Z * string * bool := (4%Z, 128%Z, "GEMM", true).

Definition awq_params (additional_param : string) : Gen.t (Z * Z * string * bool) :=
  if Py.truthy (Py.strip additional_param) then
    let parts := map Py.strip (Py.split "," additional_param) in
    if Nat.leb 4 (List.length parts) then
      bits <- parse_int (field parts 0) ;;
      group_size <- parse_int (field parts 1) ;;
      let version := field parts 2 in
      let zero_point :=
        existsb (String.eqb (Py.lower (field parts 3))) ["true"; "1"; "yes"] in
      ret (bits, group_size, version, zero_point)
    else
      yield ("[WARN] Insufficient AWQ parameters provided. Using defaults: [4, 128, 'GEMM', True]"
             ++ Py.nl) ;;
      ret awq_defaults
  else ret awq_defaults.

Definition quantize_awq (model_id additional_param token user : string) : Gen.t unit :=
  try_except
    (yield ("=== AWQ Quantization ===" ++ Py.nl) ;;
     params <- awq_params additional_param ;;
     let '(bits, group_size, version, zero_point) := params in
     yield ("[INFO] Using AWQ parameters: bits=" ++ Py.str_int bits
            ++ ", group_size=" ++ Py.str_int group_size
            ++ ", version=" ++ version
            ++ ", zero_point=" ++ Py.str_bool zero_point ++ Py.nl) ;;
     lib_call (Import "awq") ;;
     lib_call (Import "transformers") ;;
     let base_model_name := Py.last_segment model_id in
     let save_folder := Py.path_join "quantized_models" (base_model_name ++ "-AWQ") in
     let local_dir := Py.path_join "models" base_model_name in
     yield ("[INFO] Loading model and tokenizer for AWQ from local directory..." ++ Py.nl) ;;
     patch_model_config local_dir ;;
     rope <- lib_call (ConfigFromPretrained local_dir) ;;
     when (is_dict rope)
       (yield ("[DEBUG] Overridden config rope_scaling: {'type': 'linear', 'factor': 1.0}"
               ++ Py.nl)) ;;
     lib_call (AWQLoadModel local_dir) ;;
     lib_call (TokenizerFromPretrained local_dir) ;;
     yield ("[INFO] Quantizing model using AWQ..." ++ Py.nl) ;;
     lib_call (AWQQuantize bits group_size version zero_point) ;;
     lib_call (SaveModel save_folder) ;;
     lib_call (SaveTokenizer save_folder) ;;
     yield ("[INFO] AWQ quantization completed. Saved to " ++ save_folder ++ Py.nl) ;;
     relay_upload model_id base_model_name "AWQ" save_folder token user)
    (fun e => yield ("[ERROR] Error during AWQ quantization: " ++ message e ++ Py.nl)).

(** ** HQQ *)

Definition hqq_defaults : Z * Z := (2%Z, 128%Z).

Definition hqq_params (additional_param : string) : Gen.t (Z * Z) :=
  if Py.truthy (Py.strip additional_param) then
    let parts := map Py.strip (Py.split "," additional_param) in
    if Nat.leb 2 (List.length parts) then
      bits <- parse_int (field parts 0) ;;
      group_size <- parse_int (field parts 1) ;;
      ret (bits, group_size)
    else
      yield ("[WARN] Insufficient HQQ parameters provided. Using defaults: [2, 128]"
             ++ Py.nl) ;;
      ret hqq_defaults
  else ret hqq_defaults.

Definition quantize_hqq (model_id additional_param token user : string) : Gen.t unit :=
  try_except
    (yield ("=== HQQ Quantization ===" ++ Py.nl) ;;
     params <- hqq_params additional_param ;;
     let '(bits, group_size) := params in
     yield ("[INFO] Using HQQ parameters: bits=" ++ Py.str_int bits
            ++ ", group_size=" ++ Py.str_int group_size ++ Py.nl) ;;
     lib_call (Import "hqq.engine.hf") ;;
     lib_call (Import "hqq.core.quantize") ;;
     lib_call (HQQMakeConfig bits group_size) ;;
     let base_model_name := Py.last_segment model_id in
     let save_folder := Py.path_join "quantized_models" (base_model_name ++ "-HQQ") in
     yield ("[INFO] Downloading HQQ model and tokenizer..." ++ Py.nl) ;;
     lib_call (HQQLoadModel model_id) ;;
     lib_call (TokenizerFromPretrained model_id) ;;
     yield ("[INFO] Quantizing model using HQQ..." ++ Py.nl) ;;
     lib_call HQQQuantize ;;
     yield ("[INFO] HQQ quantization completed. Saving to " ++ save_folder ++ "..." ++ Py.nl) ;;
     lib_call (SaveModel save_folder) ;;
     lib_call (SaveTokenizer save_folder) ;;
     relay_upload model_id base_model_name "HQQ" save_folder token user)
    (fun e => yield ("[ERROR] Error during HQQ quantization: " ++ message e ++ Py.nl)).

(** ** The orchestrator *)

(** The orchestrator keeps the transcript in the local variable [full_log];
    its pieces are written as functions from the transcript they start with
    to a generator that yields transcripts and returns the transcript it
    ends with. *)

(** The transcripts yielded by
    [for line in g: full_log += line; yield full_log]. *)
Fixpoint snapshots (full_log : string) (lines : list string) : list string :=
  match lines with
  | [] => []
  | line :: rest => (full_log ++ line) :: snapshots (full_log ++ line) rest
  end.

Definition relay (g : Gen.t unit) (full_log : string) : Gen.t string :=
  fun w =>
    let r := g w in
    mkRun (snapshots full_log (yielded r))
          (match outcome r with
           | Done _ => Done (fold_left append (yielded r) full_log)
           | Raised e => Raised e
           end)
          (final r).

(** [full_log += s; yield full_log]. *)
Definition log_and_yield (s : string) (full_log : string) : Gen.t string :=
  yield (full_log ++ s) ;; ret (full_log ++ s).

Definition selected_methods (F : Form) : list (string * string) :=
  ((if gguf_sel F then [("GGUF", gguf_param F)] else [])
   ++ (if gptq_sel F then [("GPTQ", gptq_param F)] else [])
   ++ (if exllamav2_sel F then [("ExLlamaV2", exllamav2_param F)] else [])
   ++ (if awq_sel F then [("AWQ", awq_param F)] else [])
   ++ (if hqq_sel F then [("HQQ", hqq_param F)] else []))%list.

(** One turn of [for method, param in selected_methods]. *)
Definition run_method (F : Form) (model_id : string) (mp : string * string)
    (full_log : string) : Gen.t string :=
  let '(method, param) := mp in
  full_log <- log_and_yield ("[INFO] Running " ++ method ++ " quantization..." ++ Py.nl)
                full_log ;;
  if String.eqb method "GGUF" then
    relay (quantize_gguf model_id (gguf_param F) (hf_token F) (username F)
             (enable_imatrix F) (imatrix F)) full_log
  else if String.eqb method "GPTQ" then
    relay (quantize_gptq model_id param (hf_token F) (username F)) full_log
  else if String.eqb method "ExLlamaV2" then
    relay (quantize_exllamav2 model_id param (hf_token F) (username F)) full_log
  else if String.eqb method "AWQ" then
    relay (quantize_awq model_id param (hf_token F) (username F)) full_log
  else if String.eqb method "HQQ" then
    relay (quantize_hqq model_id param (hf_token F) (username F)) full_log
  else
    log_and_yield ("[ERROR] Unknown quantization method: " ++ method ++ Py.nl) full_log.

(** A loop that carries the transcript from one turn to the next. *)
Fixpoint for_each_log {A} (l : list A) (body : A -> string -> Gen.t string)
    (full_log : string) : Gen.t string :=
  match l with
  | [] => ret full_log
  | x :: rest => full_log <- body x full_log ;; for_each_log rest body full_log
  end.

(** [shutil.rmtree(p)]: the whole tree goes, or the call raises and leaves
    [p] with the part of its content that it did not remove. *)
Definition rmtree (p : string) : Gen.t unit :=
  fun w =>
    let w' := log_call (Rmtree p) w in
    match rmtree_failure E p w with
    | None =>
        mkRun [] (Done tt) (set_fs (filter (fun q => negb (under p q)) (fs w)) w')
    | Some (e, kept) =>
        mkRun [] (Raised e)
          (set_fs (filter (fun q => negb (under p q) || same_path q p || kept q) (fs w)) w')
    end.

(** [try: shutil.rmtree(path); full_log += deleted  except Exception as e:
    full_log += could-not-delete]. *)
Definition remove_logged (what path : string) (wording : string)
    (full_log : string) : Gen.t string :=
  r <- attempt (rmtree path) ;;
  match r with
  | inr _ => ret (full_log ++ "[INFO] Deleted " ++ what ++ " folder: " ++ path ++ Py.nl)
  | inl e =>
      ret (full_log ++ "[ERROR] Could not delete " ++ wording ++ " folder " ++ path
             ++ ": " ++ message e ++ Py.nl)
  end.

(** [os.listdir(d)], which may raise (the directory turns out to be a
    file, or cannot be read). *)
Definition do_listdir (d : string) : Gen.t (list string) :=
  fun w =>
    match listdir_failure E d w with
    | Some e => mkRun [] (Raised e) w
    | None => mkRun [] (Done (listdir d (fs w))) w
    end.

(** The deletion block at the end of a model's turn. *)
Definition cleanup (F : Form) (model_id : string) (full_log : string) : Gen.t string :=
  let base_model_name := Py.last_segment model_id in
  full_log <-
    (if delete_original F then
       let original_path := Py.path_join "models" base_model_name in
       w <- get_world ;;
       if path_exists original_path (fs w) then
         remove_logged "original model" original_path "original model" full_log
       else ret full_log
     else ret full_log) ;;
  if delete_quantized F then
    let quant_dir := "quantized_models" in
    w <- get_world ;;
    if path_exists quant_dir (fs w) then
      folders <- do_listdir quant_dir ;;
      for_each_log folders
        (fun folder full_log =>
           if Py.startswith (base_model_name ++ "-") folder then
             let full_path := Py.path_join quant_dir folder in
             remove_logged "quantized model" full_path "quantized" full_log
           else ret full_log)
        full_log
    else ret full_log
  else ret full_log.

(** One turn of [for model_id in model_list]. *)
Definition process_model (F : Form) (model_id : string) (full_log : string)
    : Gen.t string :=
  let full_log := full_log ++ Py.nl ++ "=== Processing model: " ++ model_id ++ " ==="
                  ++ Py.nl in
  full_log <- relay (download_model model_id (hf_token F)) full_log ;;
  match selected_methods F with
  | [] =>
      log_and_yield
        ("[ERROR] No quantization method selected for model. Please select at least one method."
         ++ Py.nl) full_log
  | methods =>
      full_log <- for_each_log methods (run_method F model_id) full_log ;;
      full_log <- cleanup F model_id full_log ;;
      yield full_log ;;
      ret full_log
  end.

Definition model_list (F : Form) : list string :=
  filter Py.truthy (map Py.strip (Py.splitlines (model_ids F))).

Definition quant_tavern_ui (F : Form) : Gen.t unit :=
  let full_log := "=== Starting SpongeQuant Quantization Process ===" ++ Py.nl in
  full_log <- for_each_log (model_list F) (process_model F) full_log ;;
  let full_log := full_log ++ Py.nl ++ "=== Quantization Process Completed ===" ++ Py.nl in
  yield full_log.

End WithEnv.
End App.

(* ================================================================== *)
(** * A sample environment *)
(* ================================================================== *)

(** A small, fully concrete set of collaborators, used to run the program on
    examples: every command prints one line and exits with status 1, the hub
    lists one file per model, downloads create that file, the libraries are
    installed and never fail, deletions succeed. *)
Module Sample.
Import Sys.

Definition process : Process :=
  mkProcess ["working" ++ Py.nl; ""] "done" 1.

Definition env : Env := {|
  sys_executable := "/usr/bin/python3";
  py_float := fun s => if Py.truthy (Py.strip s) then Some (mkFloat (Py.strip s)) else None;
  popen := fun _ w => (process, fs w);
  list_repo_files := fun _ _ _ => inr ["config.json"];
  snapshot_download := fun _ _ target w =>
    (inr target, touch (Py.path_join target "config.json") (touch target (fs w)));
  write_card := fun _ _ _ _ _ _ => None;
  create_repo := fun _ _ _ => None;
  upload_folder := fun _ _ _ _ => None;
  lib := fun _ w => (inr PyNone, fs w);
  rmtree_failure := fun _ _ => None;
  listdir_failure := fun _ _ => None
|}.

(** The same, with a hub that cannot be reached. *)
Definition offline : Env := {|
  sys_executable := sys_executable env;
  py_float := py_float env;
  popen := popen env;
  list_repo_files := fun _ _ _ => inl (mkExn OSError "connection refused");
  snapshot_download := fun _ _ _ w => (inl (mkExn OSError "connection refused"), fs w);
  write_card := write_card env;
  create_repo := fun _ _ _ => Some (mkExn OSError "connection refused");
  upload_folder := upload_folder env;
  lib := lib env;
  rmtree_failure := fun _ _ => Some (mkExn OSError "permission denied", fun _ => true);
  listdir_failure := fun _ _ => None
|}.

Definition empty_world : World := mkWorld [] [].

Definition knobs : App.Imatrix :=
  App.mkImatrix "gguf/imatrix.dat" "gguf/calibration_datav3.txt" true
                false 1 false 64 10 0 "" 80.

Definition form : App.Form :=
  App.mkForm "org/modelA" "token" "user"
             true "Q4_K_M" false "4, 128, 0.1" false "4.5"
             false "4, 128, GEMM, True" false "2, 128"
             false knobs false false.

(** Two models, GPTQ and HQQ selected, and a GPTQ parameter string whose
    bits field is not a number. *)
Definition bad_gptq_form : App.Form :=
  App.mkForm ("org/a" ++ Py.nl ++ "org/b") "token" "user"
             false "Q4_K_M" true "x, 128, 0.1" false "4.5"
             false "4, 128, GEMM, True" true "2, 128"
             false knobs false false.

End Sample.

(* ================================================================== *)
(** * Notions used to state the properties *)
(* ================================================================== *)
Module Notions.
Import Sys.
Import Gen.

(** [extends a b]: the text [b] is [a] with something appended. *)
Definition extends (a b : string) : Prop := exists suffix, b = a ++ suffix.



(** The non-empty lines that the loop of [run_command] reads before a
    [readline()] raises, and the exception of that [readline()]. *)
Fixpoint lines_read (rs : list (Exn + string)) : list string :=
  match rs with
  | inr line :: more => ((if Py.truthy line then [line] else []) ++ lines_read more)%list
  | _ => []
  end.

Fixpoint read_failure (rs : list (Exn + string)) : option Exn :=
  match rs with
  | [] => None
  | inl e :: _ => Some e
  | inr _ :: more => read_failure more
  end.

(** The warnings of the three parameter blocks. *)
Definition gptq_warning : string :=
  "[WARN] Insufficient GPTQ parameters provided. Using defaults: [4, 128, 0.1]" ++ Py.nl.

Definition awq_warning : string :=
  "[WARN] Insufficient AWQ parameters provided. Using defaults: [4, 128, 'GEMM', True]"
  ++ Py.nl.

Definition hqq_warning : string :=
  "[WARN] Insufficient HQQ parameters provided. Using defaults: [2, 128]" ++ Py.nl.






(** The names [quantize_gguf] derives from the model identifier. *)
Definition base_name (model_id : string) : string := Py.strip (Py.last_segment model_id).

Definition save_folder (model_id : string) : string :=
  Py.path_join "quantized_models" (base_name model_id ++ "-GGUF").

Definition out_file (model_id : string) : string :=
  Py.path_join (save_folder model_id) (Py.lower (base_name model_id) ++ ".bf16.gguf").

Definition model_dir (model_id : string) : string :=
  Py.path_join "models" (base_name model_id).



(** The completeness test of [download_model]: the target directory exists
    and the oracle answers yes. *)
Definition complete (E : Env) (model_id token : string) (w : World) : bool :=
  let target := Py.path_join "models" (Py.last_segment model_id) in
  path_exists target (fs w) && App.is_model_fully_downloaded E model_id target token w.

(** [chain log ys]: starting from [log], every transcript of [ys] extends
    the one before it. *)
Fixpoint chain (log : string) (ys : list string) : Prop :=
  match ys with
  | [] => True
  | y :: rest => extends log y /\ chain y rest
  end.

(** [grows log m]: run from the transcript [log], the piece [m] of the
    orchestrator yields a chain of transcripts and, when it returns, returns
    a transcript that extends the last one it yielded. *)
Definition grows (log : string) (m : Gen.t string) : Prop :=
  forall w,
    chain log (yielded (m w))
    /\ forall log', outcome (m w) = Done log' -> extends (last (yielded (m w)) log) log'.

(** [occurs s t]: the text [s] is a part of the transcript [t]. *)
Definition occurs (s t : string) : Prop := exists pre post, t = pre ++ s ++ post.

(** [removes E ds w w']: from [w] to [w'], [rmtree] was called on the paths
    [ds], in this order, nothing was added to the file system and nothing
    outside their trees left it; when no [rmtree] fails, exactly their trees
    left it. *)
Definition removes (E : Env) (ds : list string) (w w' : World) : Prop :=
  calls w' = (calls w ++ map Rmtree ds)%list
  /\ exists P, fs w' = filter P (fs w)
       /\ (forall q, (forall d, In d ds -> under d q = false) -> P q = true)
       /\ ((forall p w0, rmtree_failure E p w0 = None) ->
           forall q, P q = negb (existsb (fun d => under d q) ds)).

(** What the transcript says of the deletion of [d]: it went through and
    [d] is gone, or it failed and the failure is written down. *)
Definition recorded (d log : string) (w : World) : Prop :=
  (path_exists d (fs w) = false
   /\ exists what, occurs ("[INFO] Deleted " ++ what ++ " folder: " ++ d ++ Py.nl) log)
  \/ (exists wording e,
        occurs ("[ERROR] Could not delete " ++ wording ++ " folder " ++ d ++ ": "
                ++ message e ++ Py.nl) log).

(** The paths the deletion block hands to [rmtree], read off the world it
    starts in. *)
Definition targets (F : App.Form) (model_id : string) (w : World) : list string :=
  let base := Py.last_segment model_id in
  ((if App.delete_original F && path_exists (Py.path_join "models" base) (fs w)
    then [Py.path_join "models" base] else [])
   ++ (if App.delete_quantized F && path_exists "quantized_models" (fs w)
       then map (Py.path_join "quantized_models")
                (filter (Py.startswith (base ++ "-")) (listdir "quantized_models" (fs w)))
       else []))%list.

End Notions.

(* ================================================================== *)
(** * More sample collaborators and notions *)
(* ================================================================== *)

(** Collaborators of a machine without the quantization libraries: every
    [import] of the executors fails with an [ImportError]. *)
Module Cases.
Import Sys.

Definition missing (module : string) : Exn :=
  mkExn ImportError ("No module named '" ++ module ++ "'").

Definition no_libraries : Env := {|
  sys_executable := sys_executable Sample.env;
  py_float := py_float Sample.env;
  popen := popen Sample.env;
  list_repo_files := list_repo_files Sample.env;
  snapshot_download := snapshot_download Sample.env;
  write_card := write_card Sample.env;
  create_repo := create_repo Sample.env;
  upload_folder := upload_folder Sample.env;
  lib := fun c w =>
           match c with
           | Import module => (inl (missing module), fs w)
           | _ => (inr PyNone, fs w)
           end;
  rmtree_failure := rmtree_failure Sample.env;
  listdir_failure := listdir_failure Sample.env
|}.

(** The form with no method selected and both deletions asked for. *)
Definition nothing_selected : App.Form :=
  App.mkForm "org/modelA" "token" "user"
             false "Q4_K_M" false "4, 128, 0.1" false "4.5"
             false "4, 128, GEMM, True" false "2, 128"
             false Sample.knobs true true.

(** A child process that prints one line and then a byte that is not
    UTF-8. *)
Definition undecodable : Exn :=
  mkExn ValueError
    "'utf-8' codec can't decode byte 0xff in position 0: invalid start byte".

Definition garbled : Launcher :=
  fun _ w => (inr (mkPipe [inr ("working" ++ Py.nl); inl undecodable] (inr "") 0), fs w).

(** The form with the three executors that guard their whole body, for two
    models, and the deletion of the original model asked for. *)
Definition guarded_methods : App.Form :=
  App.mkForm ("org/a" ++ Py.nl ++ "org/b") "token" "user"
             false "Q4_K_M" false "4, 128, 0.1" true "4.5"
             true "x, 128, GEMM, True" true "2, 128"
             false Sample.knobs true false.

(** Collaborators whose [rmtree] removes the content of a tree and then
    fails on the directory itself, as it does on a directory named through
    [..]. *)
Definition hollowing : Env := {|
  sys_executable := sys_executable Sample.env;
  py_float := py_float Sample.env;
  popen := popen Sample.env;
  list_repo_files := list_repo_files Sample.env;
  snapshot_download := snapshot_download Sample.env;
  write_card := write_card Sample.env;
  create_repo := create_repo Sample.env;
  upload_folder := upload_folder Sample.env;
  lib := lib Sample.env;
  rmtree_failure := fun p _ =>
    Some (mkExn OSError ("[Errno 2] No such file or directory: " ++ Py.repr p),
          fun _ => false);
  listdir_failure := listdir_failure Sample.env
|}.

(** Collaborators of a machine where [quantized_models] cannot be listed. *)
Definition unlistable : Env := {|
  sys_executable := sys_executable Sample.env;
  py_float := py_float Sample.env;
  popen := popen Sample.env;
  list_repo_files := list_repo_files Sample.env;
  snapshot_download := snapshot_download Sample.env;
  write_card := write_card Sample.env;
  create_repo := create_repo Sample.env;
  upload_folder := upload_folder Sample.env;
  lib := lib Sample.env;
  rmtree_failure := rmtree_failure Sample.env;
  listdir_failure := fun d _ =>
    Some (mkExn OSError ("[Errno 20] Not a directory: " ++ Py.repr d))
|}.

End Cases.

Module Control.
Import Sys.
Import Gen.

(** [returns m]: whatever the world, [m] ends with a normal return. *)
Definition returns {A} (m : Gen.t A) : Prop :=
  forall w, exists a, outcome (m w) = Done a.

(** [completes log m]: the piece [m] of the orchestrator, run from the
    transcript [log], returns normally, with a transcript that extends
    [log]. *)
Definition completes (log : string) (m : Gen.t string) : Prop :=
  forall w, exists log', outcome (m w) = Done log' /\ Notions.extends log log'.

(** [blank s]: [s] is made of whitespace only. *)
Fixpoint blank (s : string) : bool :=
  match s with
  | EmptyString => true
  | String c r => Py.is_space c && blank r
  end.

(** The line that opens a model's turn in the transcript. *)
Definition model_header (model_id : string) : string :=
  "=== Processing model: " ++ model_id ++ " ===" ++ Py.nl.

End Control.

(* ================================================================== *)
(** * The configuration file *)
(* ================================================================== *)

(** What [patch_model_config] does to the content of [config.json]: the
    dictionary [json.load] gives becomes the dictionary [json.dump] writes
    back. (For the world of the sections above the file only keeps
    existing.) *)
Module ConfigFile.

Local Set Warnings "-register-all".

(** JSON values as Python holds them; a number is kept as its [repr]. A
    dictionary keeps its keys in insertion order. *)
Inductive Json :=
| JNull
| JBool (b : bool)
| JNum (repr : string)
| JStr (s : string)
| JList (items : list Json)
| JDict (fields : list (string * Json)).

Definition Dict := list (string * Json).

(** [d.get(k)]. *)
Fixpoint dict_get (k : string) (d : Dict) : option Json :=
  match d with
  | [] => None
  | (k', v) :: rest => if String.eqb k' k then Some v else dict_get k rest
  end.

(** [k in d]. *)
Definition dict_mem (k : string) (d : Dict) : bool :=
  match dict_get k d with Some _ => true | None => false end.

(** [d[k] = v]: the value changes in place, a new key goes last. *)
Fixpoint dict_set (k : string) (v : Json) (d : Dict) : Dict :=
  match d with
  | [] => [(k, v)]
  | (k', v') :: rest =>
      if String.eqb k' k then (k, v) :: rest else (k', v') :: dict_set k v rest
  end.

(** [del d[k]]. *)
Fixpoint dict_del (k : string) (d : Dict) : Dict :=
  match d with
  | [] => []
  | (k', v') :: rest =>
      if String.eqb k' k then dict_del k rest else (k', v') :: dict_del k rest
  end.

Definition removed_keys : list string :=
  ["low_freq_factor"; "high_freq_factor"; "original_max_position_embeddings"; "rope_type"].

(** The body of the [try] of [patch_model_config], between [json.load] and
    [json.dump]. *)
Definition patch_config_dict (config_dict : Dict) : Dict :=
  let config_dict :=
    match dict_get "rope_scaling" config_dict with
    | Some (JDict rope_scaling) =>
        let factor :=
          match dict_get "factor" rope_scaling with
          | Some f => f
          | None => JNum "1.0"
          end in
        dict_set "rope_scaling" (JDict [("type", JStr "linear"); ("factor", factor)])
                 config_dict
    | _ => config_dict
    end in
  fold_left (fun d key => if dict_mem key d then dict_del key d else d)
            removed_keys config_dict.

(** A Llama 3.1 configuration, as far as the patch is concerned. *)
Definition llama31 : Dict :=
  [("architectures", JList [JStr "LlamaForCausalLM"]);
   ("rope_scaling",
    JDict [("factor", JNum "8.0"); ("low_freq_factor", JNum "1.0");
           ("high_freq_factor", JNum "4.0");
           ("original_max_position_embeddings", JNum "8192");
           ("rope_type", JStr "llama3")]);
   ("rope_type", JStr "llama3");
   ("vocab_size", JNum "128256")].

End ConfigFile.

(* ================================================================== *)
(** * Strings *)
(* ================================================================== *)
Module StrFacts.
Import Notions.

Lemma append_assoc (a b c : string) : (a ++ b) ++ c = a ++ (b ++ c).
Proof. induction a as [|x a IH]; simpl; [reflexivity | now rewrite IH]. Qed.

Lemma append_nil_r (a : string) : a ++ "" = a.
Proof. induction a as [|x a IH]; simpl; [reflexivity | now rewrite IH]. Qed.

Lemma extends_refl a : extends a a.
Proof. exists "". now rewrite append_nil_r. Qed.

Lemma extends_trans a b c : extends a b -> extends b c -> extends a c.
Proof.
  intros [s1 ->] [s2 ->]. exists (s1 ++ s2). now rewrite append_assoc.
Qed.

Lemma extends_append a s : extends a (a ++ s).
Proof. now exists s. Qed.

End StrFacts.

(* ================================================================== *)
(** * Reasoning about generators *)
(* ================================================================== *)
Module GenFacts.
Import Notions.
Import Sys.
Import Gen.

Lemma bind_eq {A B} (m : Gen.t A) (k : A -> Gen.t B) w ys a w1 :
  m w = mkRun ys (Done a) w1 ->
  bind m k w = mkRun (ys ++ yielded (k a w1)) (outcome (k a w1)) (final (k a w1)).
Proof. intros H. unfold bind. rewrite H. reflexivity. Qed.

Lemma bind_raised {A B} (m : Gen.t A) (k : A -> Gen.t B) w ys e w1 :
  m w = mkRun ys (Raised e) w1 ->
  bind m k w = mkRun ys (Raised e) w1.
Proof. intros H. unfold bind. rewrite H. reflexivity. Qed.









End GenFacts.

(* ================================================================== *)
(** * The process runner *)
(* ================================================================== *)
Module RunnerFacts.
Import Notions.
Import Sys.
Import Gen.
Import GenFacts.

(** The loop, on the results of the [readline()] calls. *)
Lemma drain_eq lines w :
  App.drain lines w
  = mkRun (lines_read lines)
          (match read_failure lines with Some e => Raised e | None => Done tt end) w.
Proof.
  revert w. induction lines as [|[e|line] more IH]; intros w; [reflexivity| reflexivity |].
  cbn [App.drain lines_read read_failure].
  erewrite bind_eq by reflexivity. cbn [App.result ret final yielded app].
  unfold App.when. destruct (Py.truthy line).
  - erewrite bind_eq by reflexivity. cbn [yield final yielded app]. now rewrite IH.
  - erewrite bind_eq by reflexivity. cbn [ret final yielded app]. now rewrite IH.
Qed.

Lemma spawn_eq (launch : Launcher) command w :
  App.spawn launch command w
  = mkRun []
          (match fst (launch command w) with inl e => Raised e | inr p => Done p end)
          (set_fs (snd (launch command w)) (log_call (Popen command) w)).
Proof. unfold App.spawn. destruct (launch command w) as [[e|p] fs']; reflexivity. Qed.





End RunnerFacts.

(** C4 does not hold: [run_command] raises. Its body has no [try], and the
    pipe is read as text: when the child prints a byte that is not UTF-8, the
    [readline()] that meets it raises a [UnicodeDecodeError], which leaves
    the generator after the lines yielded so far; no diagnostic line
    follows. *)
Theorem run_command_raises_on_undecodable_output :
  let r := App.run_command Cases.garbled "llama-quantize in.gguf out.gguf Q4_K_M"
             Sample.empty_world in
  Gen.outcome r = Gen.Raised Cases.undecodable
  /\ Gen.yielded r
     = ["[DEBUG] Executing command: llama-quantize in.gguf out.gguf Q4_K_M" ++ Py.nl;
        "working" ++ Py.nl].
Proof. split; reflexivity. Qed.

(** C4, as it holds. [run_command] first yields the line that announces the
    command. When starting the child raises, that exception leaves the
    generator. Otherwise it yields the non-empty lines read from the merged
    output, in the order they were read; when a [readline()] or the final
    [read()] raises, that exception leaves the generator and nothing more is
    yielded; otherwise it yields the unterminated rest of the output as one
    more item when there is one, then one last diagnostic line that reports
    the exit code exactly when that code is not zero, and returns. *)
Theorem run_command_streams_output_until_a_read_raises :
  forall (launch : Sys.Launcher) (command : string) (w : Sys.World),
    let r := App.run_command launch command w in
    let announcement := "[DEBUG] Executing command: " ++ command ++ Py.nl in
    match fst (launch command w) with
    | inl e => Gen.yielded r = [announcement] /\ Gen.outcome r = Gen.Raised e
    | inr p =>
        match Notions.read_failure (Sys.readlines p), Sys.rest p with
        | Some e, _ =>
            Gen.yielded r = announcement :: Notions.lines_read (Sys.readlines p)
            /\ Gen.outcome r = Gen.Raised e
        | None, inl e =>
            Gen.yielded r = announcement :: Notions.lines_read (Sys.readlines p)
            /\ Gen.outcome r = Gen.Raised e
        | None, inr remaining =>
            Gen.yielded r
            = announcement
              :: (Notions.lines_read (Sys.readlines p)
                  ++ (if Py.truthy remaining then [remaining] else [])
                  ++ (if Z.eqb (Sys.exit_code p) 0 then []
                      else [("[ERROR] Command returned non-zero exit code: "
                             ++ Py.str_int (Sys.exit_code p) ++ Py.nl)%string]))%list
            /\ Gen.outcome r = Gen.Done tt
        end
    end.
Proof.
  intros launch command w r announcement. subst r announcement.
  unfold App.run_command.
  erewrite GenFacts.bind_eq by reflexivity.
  cbn [Gen.yield Gen.final Gen.yielded].
  pose proof (RunnerFacts.spawn_eq launch command w) as Hs.
  destruct (fst (launch command w)) as [e|p].
  - erewrite GenFacts.bind_raised by exact Hs. split; reflexivity.
  - erewrite GenFacts.bind_eq by exact Hs.
    set (w1 := Sys.set_fs _ _).
    pose proof (RunnerFacts.drain_eq (Sys.readlines p) w1) as Hd.
    destruct (Notions.read_failure (Sys.readlines p)) as [e|].
    + erewrite GenFacts.bind_raised by exact Hd.
      cbn [Gen.yielded Gen.outcome Gen.final app]. split; reflexivity.
    + erewrite GenFacts.bind_eq by exact Hd.
      destruct (Sys.rest p) as [e|remaining]; cbn [App.result].
      * erewrite GenFacts.bind_raised by reflexivity.
        cbn [Gen.yielded Gen.outcome Gen.final app]. rewrite app_nil_r.
        split; reflexivity.
      * erewrite GenFacts.bind_eq by reflexivity.
        unfold App.when, Gen.bind.
        destruct (Py.truthy remaining), (Z.eqb (Sys.exit_code p) 0);
          cbn [Gen.yielded Gen.outcome Gen.final negb Gen.ret Gen.yield app];
          rewrite ?app_nil_r; split; reflexivity.
Qed.

(* ================================================================== *)
(** * The publisher *)
(* ================================================================== *)
Module PublisherFacts.
Import Notions.
Import Sys.
Import Gen.
Import GenFacts.

Lemma substring_all s : substring 0 (String.length s) s = s.
Proof. induction s as [|c r IH]; simpl; [reflexivity | now rewrite IH]. Qed.

Lemma lower_char_i c : Py.lower_char c = "i"%char -> Ascii.eqb c "-" = false.
Proof.
  destruct c as [[] [] [] [] [] [] [] []]; vm_compute; intros H;
    first [reflexivity | discriminate H].
Qed.

Lemma lower_char_1 c : Py.lower_char c = "1"%char -> Ascii.eqb c "-" = false.
Proof.
  destruct c as [[] [] [] [] [] [] [] []]; vm_compute; intros H;
    first [reflexivity | discriminate H].
Qed.

Lemma lower_char_dash c : Py.lower_char c = "-"%char -> Ascii.eqb c "-" = true.
Proof.
  destruct c as [[] [] [] [] [] [] [] []]; vm_compute; intros H;
    first [reflexivity | discriminate H].
Qed.

Lemma format_quant_type_eq qt :
  App.format_quant_type qt
  = if Py.startswith "i1-" (Py.lower qt)
    then "i1-" ++ Py.upper (Py.drop 3 qt)
    else Py.upper qt.
Proof.
  unfold App.format_quant_type.
  destruct (Py.startswith "i1-" (Py.lower qt)) eqn:Hp; [|reflexivity].
  unfold Py.startswith, Py.lower in Hp.
  destruct qt as [|c0 qt]; [discriminate Hp|].
  cbn [Py.map_chars String.prefix] in Hp.
  destruct (ascii_dec "i" (Py.lower_char c0)) as [H0|]; [|discriminate Hp].
  destruct qt as [|c1 qt]; [discriminate Hp|].
  cbn [Py.map_chars String.prefix] in Hp.
  destruct (ascii_dec "1" (Py.lower_char c1)) as [H1|]; [|discriminate Hp].
  destruct qt as [|c2 r]; [discriminate Hp|].
  cbn [Py.map_chars String.prefix] in Hp.
  destruct (ascii_dec "-" (Py.lower_char c2)) as [H2|]; [|discriminate Hp].
  cbn [Py.split1].
  rewrite (lower_char_i c0 (eq_sym H0)), (lower_char_1 c1 (eq_sym H1)),
          (lower_char_dash c2 (eq_sym H2)).
  unfold Py.drop. cbn [String.length Nat.sub substring].
  now rewrite Nat.sub_0_r, substring_all.
Qed.

Lemma upload_quant_calls E model_id base qt folder token user w :
  calls (snd (App.upload_quant E model_id base qt folder token user w))
  = (calls w ++ [CreateRepo (user ++ "/" ++ base ++ "-" ++ App.format_quant_type qt)])%list.
Proof.
  unfold App.upload_quant.
  destruct (write_card E model_id base qt user folder w); cbn [set_fs calls];
    match goal with
    | |- context [create_repo E ?r ?t ?w'] => destruct (create_repo E r t w')
    end; try reflexivity;
    match goal with
    | |- context [upload_folder E ?f ?r ?t ?w'] => destruct (upload_folder E f r t w')
    end; reflexivity.
Qed.


End PublisherFacts.

(** C9. [format_quant_type] keeps the family prefix [i1-] (recognised
    whatever the case of its letter) in front of the upper-cased rest of the
    token, and upper-cases the whole token when that prefix is absent; the
    publisher creates, and announces first in its log, the destination
    [{username}/{base-name}-{formatted method name}]. *)
Theorem publisher_formats_method_name_and_destination :
  forall (E : Sys.Env) (model_id base qt folder token user : string) (w : Sys.World),
    let destination := user ++ "/" ++ base ++ "-" ++ App.format_quant_type qt in
    App.format_quant_type qt
    = (if Py.startswith "i1-" (Py.lower qt)
       then "i1-" ++ Py.upper (Py.drop 3 qt)
       else Py.upper qt)
    /\ Sys.calls (snd (App.upload_quant E model_id base qt folder token user w))
       = (Sys.calls w ++ [Sys.CreateRepo destination])%list
    /\ exists rest,
         fst (App.upload_quant E model_id base qt folder token user w)
         = "[INFO] Preparing to upload quantized model to repo: " ++ destination
           ++ Py.nl ++ rest.
Proof.
  intros E model_id base qt folder token user w destination.
  split; [apply PublisherFacts.format_quant_type_eq|].
  split; [apply PublisherFacts.upload_quant_calls|].
  unfold App.upload_quant. fold destination.
  destruct (Sys.write_card E model_id base qt user folder w);
    match goal with
    | |- context [Sys.create_repo E ?r ?t ?w'] => destruct (Sys.create_repo E r t w')
    end;
    try match goal with
    | |- context [Sys.upload_folder E ?f ?r ?t ?w'] => destruct (Sys.upload_folder E f r t w')
    end;
    cbn [fst]; eexists;
    repeat rewrite StrFacts.append_assoc; reflexivity.
Qed.

(* ================================================================== *)
(** * The parameter blocks *)
(* ================================================================== *)
Module ParamFacts.
Import Notions.
Import Sys.
Import Gen.

Lemma truthy_false s : s = "" -> Py.truthy s = false.
Proof. now intros ->. Qed.

Lemma truthy_true s : s <> "" -> Py.truthy s = true.
Proof. destruct s; [congruence | reflexivity]. Qed.

Lemma too_few n (parts : list string) :
  List.length parts < n -> Nat.leb n (List.length (map Py.strip parts)) = false.
Proof. intros H. rewrite length_map. apply Nat.leb_gt. exact H. Qed.

Lemma gptq_blank E s w :
  Py.strip s = "" -> App.gptq_params E s w = mkRun [] (Done App.gptq_defaults) w.
Proof. intros H. unfold App.gptq_params. now rewrite (@truthy_false _ H). Qed.

Lemma gptq_short E s w :
  Py.strip s <> "" -> List.length (Py.split "," s) < 3 ->
  App.gptq_params E s w = mkRun [gptq_warning] (Done App.gptq_defaults) w.
Proof.
  intros H Hn. unfold App.gptq_params. rewrite (@truthy_true _ H), (@too_few _ _ Hn).
  reflexivity.
Qed.

Lemma awq_blank s w :
  Py.strip s = "" -> App.awq_params s w = mkRun [] (Done App.awq_defaults) w.
Proof. intros H. unfold App.awq_params. now rewrite (@truthy_false _ H). Qed.

Lemma awq_short s w :
  Py.strip s <> "" -> List.length (Py.split "," s) < 4 ->
  App.awq_params s w = mkRun [awq_warning] (Done App.awq_defaults) w.
Proof.
  intros H Hn. unfold App.awq_params. rewrite (@truthy_true _ H), (@too_few _ _ Hn).
  reflexivity.
Qed.

Lemma hqq_blank s w :
  Py.strip s = "" -> App.hqq_params s w = mkRun [] (Done App.hqq_defaults) w.
Proof. intros H. unfold App.hqq_params. now rewrite (@truthy_false _ H). Qed.

Lemma hqq_short s w :
  Py.strip s <> "" -> List.length (Py.split "," s) < 2 ->
  App.hqq_params s w = mkRun [hqq_warning] (Done App.hqq_defaults) w.
Proof.
  intros H Hn. unfold App.hqq_params. rewrite (@truthy_true _ H), (@too_few _ _ Hn).
  reflexivity.
Qed.

Lemma exl2_blank E s w :
  Py.strip s = "" -> App.exl2_params E s w = mkRun [] (Done App.exl2_default) w.
Proof. intros H. unfold App.exl2_params. now rewrite (@truthy_false _ H). Qed.

End ParamFacts.

(** C3, as the claim states it, fails on the empty string: the GPTQ
    parameter block then takes the default tuple and records nothing. *)
Lemma gptq_empty_string_records_no_warning :
  App.gptq_params Sample.env "" Sample.empty_world
  = Gen.mkRun [] (Gen.Done (4%Z, 128%Z, Sys.mkFloat "0.1")) Sample.empty_world.
Proof. reflexivity. Qed.

(** C3, amended. For GPTQ, AWQ and HQQ, a raw parameter string that is blank
    (empty once stripped) is replaced by the method's full default tuple and
    nothing is recorded; one that is not blank but has fewer comma-separated
    fields than the method requires (3, 4 and 2) is replaced by the full
    default tuple and exactly one warning is recorded; in both cases nothing
    of the input reaches the result, and the world is left as it was. For
    ExLlamaV2 a blank string gives the default 4.5 and nothing is recorded. *)
Theorem short_parameters_fall_back_to_all_defaults :
  forall (E : Sys.Env) (s : string) (w : Sys.World),
    (Py.strip s = "" ->
       App.gptq_params E s w = Gen.mkRun [] (Gen.Done (4%Z, 128%Z, Sys.mkFloat "0.1")) w
       /\ App.awq_params s w = Gen.mkRun [] (Gen.Done (4%Z, 128%Z, "GEMM", true)) w
       /\ App.hqq_params s w = Gen.mkRun [] (Gen.Done (2%Z, 128%Z)) w
       /\ App.exl2_params E s w = Gen.mkRun [] (Gen.Done (Sys.mkFloat "4.5")) w)
    /\ (Py.strip s <> "" ->
        (List.length (Py.split "," s) < 3 ->
           App.gptq_params E s w
           = Gen.mkRun
               ["[WARN] Insufficient GPTQ parameters provided. Using defaults: [4, 128, 0.1]"
                ++ Py.nl]
               (Gen.Done (4%Z, 128%Z, Sys.mkFloat "0.1")) w)
        /\ (List.length (Py.split "," s) < 4 ->
           App.awq_params s w
           = Gen.mkRun
               ["[WARN] Insufficient AWQ parameters provided. Using defaults: [4, 128, 'GEMM', True]"
                ++ Py.nl]
               (Gen.Done (4%Z, 128%Z, "GEMM", true)) w)
        /\ (List.length (Py.split "," s) < 2 ->
           App.hqq_params s w
           = Gen.mkRun
               ["[WARN] Insufficient HQQ parameters provided. Using defaults: [2, 128]"
                ++ Py.nl]
               (Gen.Done (2%Z, 128%Z)) w)).
Proof.
  intros E s w. split.
  - intros H. repeat split.
    + now apply ParamFacts.gptq_blank.
    + now apply ParamFacts.awq_blank.
    + now apply ParamFacts.hqq_blank.
    + now apply ParamFacts.exl2_blank.
  - intros H. repeat split; intros Hn.
    + now apply ParamFacts.gptq_short.
    + now apply ParamFacts.awq_short.
    + now apply ParamFacts.hqq_short.
Qed.

(** The two instances named by C3: the empty string, and ["8,64"], which has
    two fields where GPTQ wants three. *)
Lemma short_parameters_fall_back_to_all_defaults_witness :
  App.gptq_params Sample.env "" Sample.empty_world
  = Gen.mkRun [] (Gen.Done (4%Z, 128%Z, Sys.mkFloat "0.1")) Sample.empty_world
  /\ App.gptq_params Sample.env "8,64" Sample.empty_world
     = Gen.mkRun
         ["[WARN] Insufficient GPTQ parameters provided. Using defaults: [4, 128, 0.1]"
          ++ Py.nl]
         (Gen.Done (4%Z, 128%Z, Sys.mkFloat "0.1")) Sample.empty_world.
Proof.
  split.
  - apply (short_parameters_fall_back_to_all_defaults Sample.env "" Sample.empty_world).
    reflexivity.
  - apply (short_parameters_fall_back_to_all_defaults Sample.env "8,64" Sample.empty_world).
    + discriminate.
    + simpl. lia.
Defined.

(* ================================================================== *)
(** * The GGUF executor *)
(* ================================================================== *)
Module GgufFacts.
Import Notions.
Import Sys.
Import Gen.
Import GenFacts.





Lemma gguf_convert_skips E model_dir out_file w :
  path_exists out_file (fs w) = true ->
  final (App.gguf_convert E model_dir out_file w) = w.
Proof.
  intros H. unfold App.gguf_convert, bind, get_world. cbn [outcome final].
  rewrite H. reflexivity.
Qed.



Lemma gguf_imatrix_skips E use_imatrix I out_file w :
  App.recompute_imatrix I = false ->
  path_exists (App.imatrix_file I) (fs w) = true ->
  final (App.gguf_imatrix E use_imatrix I out_file w) = w.
Proof.
  intros Hr He. unfold App.gguf_imatrix.
  destruct use_imatrix; cbn [App.when]; [|reflexivity].
  unfold bind, get_world. cbn [outcome final]. rewrite Hr, He. reflexivity.
Qed.





End GgufFacts.

Module GgufYields.
Import Notions.
Import Sys.
Import Gen.
Import GenFacts.
Import GgufFacts.





End GgufYields.






(* ================================================================== *)
(** * The download step *)
(* ================================================================== *)
Module DownloadFacts.
Import Notions.
Import Sys.
Import Gen.
Import GenFacts.

Lemma fetch_attempt E model_id token target w :
  exists ys u w',
    try_except
      (bind (yield ("[INFO] Downloading model " ++ model_id ++ "..." ++ Py.nl)) (fun _ =>
       bind (App.do_snapshot_download E model_id token target) (fun model_path =>
       bind (App.patch_model_config target) (fun _ =>
       yield ("[INFO] Model downloaded and patched at: " ++ model_path ++ Py.nl)))))
      (fun e => yield ("[ERROR] Error downloading model: " ++ message e ++ Py.nl)) w
    = mkRun ys (Done u) w'
    /\ calls w' = (calls w ++ [SnapshotDownload model_id])%list.
Proof.
  unfold try_except, attempt, bind, yield, App.do_snapshot_download, call,
    App.patch_model_config, ret.
  cbn [yielded outcome final].
  destruct (snapshot_download E model_id token target
              (log_call (SnapshotDownload model_id) w)) as [[e|p] fs'];
    cbn [yielded outcome final]; do 3 eexists; split; reflexivity.
Qed.

Lemma download_model_run E model_id token w :
  outcome (App.download_model E model_id token w) = Done tt
  /\ calls (final (App.download_model E model_id token w))
     = (calls w ++ (if complete E model_id token w then []
                    else [SnapshotDownload model_id]))%list
  /\ (complete E model_id token w = true ->
      final (App.download_model E model_id token w) = w).
Proof.
  unfold App.download_model, complete.
  set (target := Py.path_join "models" (Py.last_segment model_id)).
  erewrite bind_eq by reflexivity.
  erewrite bind_eq by reflexivity.
  erewrite bind_eq by reflexivity.
  erewrite bind_eq by reflexivity.
  cbn [yielded outcome final].
  destruct (fetch_attempt E model_id token target w) as [ys [[] [w' [Hrun Hcalls]]]].
  destruct (path_exists target (fs w)); cbn [andb].
  - destruct (App.is_model_fully_downloaded E model_id target token w).
    + erewrite bind_eq by reflexivity. cbn [yielded outcome final ret].
      rewrite app_nil_r. repeat split.
    + erewrite bind_eq by reflexivity. cbv beta iota. cbn [final ret yield].
      rewrite Hrun.
      cbn [yielded outcome final].
      repeat split; [exact Hcalls | discriminate].
  - erewrite bind_eq by reflexivity. cbv beta iota. cbn [final ret yield].
      rewrite Hrun.
    cbn [yielded outcome final].
    repeat split; [exact Hcalls | discriminate].
Qed.

End DownloadFacts.

(** C5. [download_model] never raises, and it calls [snapshot_download]
    exactly when it is not the case that the target directory exists and
    every file listed for the remote model has its local file; a failure to
    list the remote files makes the oracle answer false, hence a download.
    When the directory is fully present the step leaves the world as it
    found it, so a second run downloads nothing either. *)
Theorem download_is_skipped_exactly_when_fully_present :
  forall (E : Sys.Env) (model_id token : string) (w : Sys.World),
    let target := Py.path_join "models" (Py.last_segment model_id) in
    let fully_present :=
      Sys.path_exists target (Sys.fs w)
      && match Sys.list_repo_files E model_id token w with
         | inr files =>
             forallb (fun file => Sys.path_exists (Py.path_join target file) (Sys.fs w))
                     files
         | inl _ => false
         end in
    let r := App.download_model E model_id token w in
    Gen.outcome r = Gen.Done tt
    /\ Sys.calls (Gen.final r)
       = (Sys.calls w ++ (if fully_present then [] else [Sys.SnapshotDownload model_id]))%list
    /\ (forall e, Sys.list_repo_files E model_id token w = inl e ->
          App.is_model_fully_downloaded E model_id target token w = false
          /\ Sys.calls (Gen.final r) = (Sys.calls w ++ [Sys.SnapshotDownload model_id])%list)
    /\ (fully_present = true ->
          Gen.final r = w
          /\ Sys.calls (Gen.final (App.download_model E model_id token (Gen.final r)))
             = Sys.calls w).
Proof.
  intros E model_id token w target fully_present r.
  destruct (DownloadFacts.download_model_run E model_id token w) as [Ho [Hc Hsame]].
  change (Notions.complete E model_id token w) with fully_present in Hc, Hsame.
  split; [exact Ho|]. split; [exact Hc|]. split.
  - intros e He.
    assert (Hf : App.is_model_fully_downloaded E model_id target token w = false).
    { unfold App.is_model_fully_downloaded. now rewrite He. }
    split; [exact Hf|].
    subst r. rewrite Hc. unfold fully_present.
    unfold App.is_model_fully_downloaded in Hf. rewrite Hf.
    now rewrite andb_false_r.
  - intros Hp. specialize (Hsame Hp). split; [exact Hsame|].
    subst r. rewrite Hsame, Hc, Hp. now rewrite app_nil_r.
Qed.

(** An instance: the model directory and the one listed file are on disk. *)
Lemma download_is_skipped_exactly_when_fully_present_witness :
  Gen.final (App.download_model Sample.env "org/modelA" "token"
               (Sys.mkWorld ["models/modelA/config.json"; "models/modelA"] []))
  = Sys.mkWorld ["models/modelA/config.json"; "models/modelA"] []
  /\ Sys.calls
       (Gen.final
          (App.download_model Sample.env "org/modelA" "token"
             (Gen.final
                (App.download_model Sample.env "org/modelA" "token"
                   (Sys.mkWorld ["models/modelA/config.json"; "models/modelA"] [])))))
     = [].
Proof.
  apply (proj2 (proj2 (proj2 (download_is_skipped_exactly_when_fully_present
                                Sample.env "org/modelA" "token"
                                (Sys.mkWorld ["models/modelA/config.json"; "models/modelA"]
                                   []))))).
  reflexivity.
Defined.

(* ================================================================== *)
(** * The orchestrator's transcript *)
(* ================================================================== *)
Module TranscriptFacts.
Import Notions.
Import Sys.
Import Gen.
Import StrFacts.

Lemma chain_weaken a b ys : extends a b -> chain b ys -> chain a ys.
Proof.
  destruct ys as [|y rest]; [trivial|].
  intros Hab [Hby Hr]. split; [eapply extends_trans; eassumption | exact Hr].
Qed.

Lemma last_cons_irrel (z : string) l a b : last (z :: l) a = last (z :: l) b.
Proof.
  revert z. induction l as [|y l IH]; intros z; [reflexivity|].
  change (last (y :: l) a = last (y :: l) b). apply IH.
Qed.

Lemma last_append (ys1 ys2 : list string) log :
  last (ys1 ++ ys2) log = last ys2 (last ys1 log).
Proof.
  revert log. induction ys1 as [|y rest IH]; intros log; [reflexivity|].
  destruct rest as [|z rest'].
  - destruct ys2 as [|u ys2']; [reflexivity|]. cbn [app]. 
    change (last (u :: ys2') log = last (u :: ys2') y). apply last_cons_irrel.
  - change (last ((z :: rest') ++ ys2) log = last ys2 (last (z :: rest') log)).
    apply IH.
Qed.

Lemma chain_app log ys1 ys2 :
  chain log ys1 -> chain (last ys1 log) ys2 -> chain log (ys1 ++ ys2).
Proof.
  revert log. induction ys1 as [|y rest IH]; intros log H1 H2.
  - exact H2.
  - destruct H1 as [Hy Hr]. split; [exact Hy|].
    apply IH; [exact Hr|].
    destruct rest as [|z rest']; [exact H2|].
    rewrite (last_cons_irrel z rest' y log). exact H2.
Qed.

Lemma last_weaken a b (ys : list string) :
  extends a b -> extends (last ys a) (last ys b).
Proof.
  intros H. induction ys as [|y [|z rest] IH]; [exact H | apply extends_refl | exact IH].
Qed.

Lemma chain_nth log ys k a b :
  chain log ys ->
  nth_error ys k = Some a -> nth_error ys (S k) = Some b -> extends a b.
Proof.
  revert log k. induction ys as [|y rest IH]; intros log k Hc Ha Hb.
  - destruct k; discriminate Ha.
  - destruct Hc as [_ Hr]. destruct k as [|k].
    + injection Ha as <-. destruct rest as [|z rest']; [discriminate Hb|].
      injection Hb as <-. exact (proj1 Hr).
    + exact (IH y k Hr Ha Hb).
Qed.

Lemma grows_weaken a b m : extends a b -> grows b m -> grows a m.
Proof.
  intros Hab Hm w. destruct (Hm w) as [Hc Hl]. split.
  - eapply chain_weaken; eassumption.
  - intros log' Ho. eapply extends_trans; [|exact (Hl log' Ho)].
    now apply last_weaken.
Qed.

Lemma grows_ret log log1 : extends log log1 -> grows log (ret log1).
Proof.
  intros H w. split; [exact Logic.I|]. intros log' Ho. injection Ho as <-. exact H.
Qed.

Lemma grows_bind log (m : Gen.t string) (k : string -> Gen.t string) :
  grows log m -> (forall log1, grows log1 (k log1)) -> grows log (bind m k).
Proof.
  intros Hm Hk w. destruct (Hm w) as [Hc Hl]. unfold bind.
  destruct (outcome (m w)) as [log1|e] eqn:Ho; cbn [yielded outcome].
  - specialize (Hl log1 eq_refl).
    destruct (Hk log1 (final (m w))) as [Hc2 Hl2]. split.
    + apply chain_app; [exact Hc|]. eapply chain_weaken; eassumption.
    + intros log' Ho'. rewrite last_append.
      eapply extends_trans; [|exact (Hl2 log' Ho')].
      now apply last_weaken.
  - split; [exact Hc|]. intros log' Ho'. discriminate Ho'.
Qed.

Lemma grows_get_world log (k : World -> Gen.t string) :
  (forall w, grows log (k w)) -> grows log (bind get_world k).
Proof.
  intros Hk w. unfold bind, get_world. cbn [yielded outcome final app].
  destruct (Hk w w) as [Hc Hl]. split; [exact Hc | exact Hl].
Qed.

Lemma grows_silent {A} log (m : Gen.t A) (k : A -> Gen.t string) :
  (forall w, yielded (m w) = []) -> (forall a, grows log (k a)) -> grows log (bind m k).
Proof.
  intros Hm Hk w. unfold bind. rewrite (Hm w).
  destruct (outcome (m w)) as [a|e]; cbn [yielded outcome app].
  - exact (Hk a (final (m w))).
  - split; [exact Logic.I|]. intros log' Ho. discriminate Ho.
Qed.

Lemma chain_snapshots log lines : chain log (App.snapshots log lines).
Proof.
  revert log. induction lines as [|l rest IH]; intros log; [exact Logic.I|].
  split; [apply extends_append | apply IH].
Qed.

Lemma last_snapshots log lines :
  last (App.snapshots log lines) log = fold_left append lines log.
Proof.
  revert log. induction lines as [|l rest IH]; intros log; [reflexivity|].
  cbn [App.snapshots fold_left]. rewrite <- IH.
  destruct rest as [|s rest]; [reflexivity|].
  change (last (App.snapshots (log ++ l) (s :: rest)) log
          = last (App.snapshots (log ++ l) (s :: rest)) (log ++ l)).
  cbn [App.snapshots]. apply last_cons_irrel.
Qed.

Lemma grows_relay log g : grows log (App.relay g log).
Proof.
  intros w. unfold App.relay. cbn [yielded outcome]. split.
  - apply chain_snapshots.
  - intros log' Ho. destruct (outcome (g w)); [|discriminate Ho].
    injection Ho as <-. rewrite last_snapshots. apply extends_refl.
Qed.

Lemma grows_log_and_yield log s : grows log (App.log_and_yield s log).
Proof.
  intros w. unfold App.log_and_yield, bind, yield, ret. cbn [yielded outcome final app].
  split.
  - split; [apply extends_append | exact Logic.I].
  - intros log' Ho. injection Ho as <-. apply extends_refl.
Qed.

Lemma grows_yield_ret log : grows log (bind (yield log) (fun _ => ret log)).
Proof.
  intros w. unfold bind, yield, ret. cbn [yielded outcome final app].
  split.
  - split; [apply extends_refl | exact Logic.I].
  - intros log' Ho. injection Ho as <-. apply extends_refl.
Qed.

Lemma grows_for_each_log {A} (body : A -> string -> Gen.t string) l :
  (forall x log, grows log (body x log)) ->
  forall log, grows log (App.for_each_log l body log).
Proof.
  intros Hb. induction l as [|x rest IH]; intros log; cbn [App.for_each_log].
  - apply grows_ret, extends_refl.
  - apply grows_bind; [apply Hb | exact IH].
Qed.

Lemma grows_run_method E F model_id mp log :
  grows log (App.run_method E F model_id mp log).
Proof.
  destruct mp as [method param]. unfold App.run_method.
  apply grows_bind; [apply grows_log_and_yield|].
  intros log1.
  repeat match goal with
         | |- grows _ (if ?b then _ else _) => destruct b
         end;
    first [apply grows_relay | apply grows_log_and_yield].
Qed.

Lemma grows_remove_logged E what path wording log :
  grows log (App.remove_logged E what path wording log).
Proof.
  intros w. unfold App.remove_logged, bind, attempt, App.rmtree, ret.
  destruct (rmtree_failure E path w) as [[e kept]|];
    cbn [yielded outcome final app]; (split; [exact Logic.I|]);
    intros log' Ho; injection Ho as <-; apply extends_append.
Qed.

Lemma grows_cleanup E F model_id log : grows log (App.cleanup E F model_id log).
Proof.
  unfold App.cleanup. apply grows_bind.
  - destruct (App.delete_original F); [|apply grows_ret, extends_refl].
    apply grows_get_world. intros w.
    destruct (path_exists _ (fs w)); [apply grows_remove_logged|apply grows_ret, extends_refl].
  - intros log1.
    destruct (App.delete_quantized F); [|apply grows_ret, extends_refl].
    apply grows_get_world. intros w.
    destruct (path_exists _ (fs w)); [|apply grows_ret, extends_refl].
    apply grows_silent.
    + intros w0. unfold App.do_listdir.
      destruct (listdir_failure E _ w0); reflexivity.
    + intros folders. apply grows_for_each_log. intros folder log2.
      destruct (Py.startswith _ folder);
        [apply grows_remove_logged|apply grows_ret, extends_refl].
Qed.

Lemma grows_process_model E F model_id log :
  grows log (App.process_model E F model_id log).
Proof.
  unfold App.process_model.
  eapply grows_weaken; [apply extends_append|].
  apply grows_bind; [apply grows_relay|].
  intros log1.
  destruct (App.selected_methods F) as [|mp rest]; [apply grows_log_and_yield|].
  apply grows_bind; [apply grows_for_each_log; intros; apply grows_run_method|].
  intros log2.
  apply grows_bind; [apply grows_cleanup|].
  intros log3. apply grows_yield_ret.
Qed.

Lemma chain_quant_tavern_ui E F w :
  chain ("=== Starting SpongeQuant Quantization Process ===" ++ Py.nl)
        (yielded (App.quant_tavern_ui E F w)).
Proof.
  unfold App.quant_tavern_ui.
  set (start := "=== Starting SpongeQuant Quantization Process ===" ++ Py.nl).
  destruct (grows_for_each_log (App.process_model E F) (App.model_list F)
              (fun x log => grows_process_model E F x log) start w) as [Hc Hl].
  unfold bind.
  destruct (outcome (App.for_each_log (App.model_list F) (App.process_model E F) start w))
    as [log1|e]; cbn [yielded]; [|exact Hc].
  apply chain_app; [exact Hc|].
  cbn [yield yielded chain]. split; [|exact Logic.I].
  eapply extends_trans; [exact (Hl log1 eq_refl) | apply extends_append].
Qed.

End TranscriptFacts.

(** C7. In every run of the orchestrator, each transcript it yields begins
    with the transcript it yielded just before: the transcript is only
    appended to. *)
Theorem transcript_only_grows :
  forall (E : Sys.Env) (F : App.Form) (w : Sys.World) (k : nat) (a b : string),
    nth_error (Gen.yielded (App.quant_tavern_ui E F w)) k = Some a ->
    nth_error (Gen.yielded (App.quant_tavern_ui E F w)) (S k) = Some b ->
    exists suffix, b = a ++ suffix.
Proof.
  intros E F w k a b Ha Hb.
  exact (@TranscriptFacts.chain_nth _ _ k a b
           (TranscriptFacts.chain_quant_tavern_ui E F w) Ha Hb).
Qed.

(** An instance: the first two transcripts of the sample run. *)
Lemma transcript_only_grows_witness :
  exists suffix,
    nth 1 (Gen.yielded (App.quant_tavern_ui Sample.env Sample.form Sample.empty_world)) ""
    = nth 0 (Gen.yielded (App.quant_tavern_ui Sample.env Sample.form Sample.empty_world)) ""
      ++ suffix.
Proof.
  apply (transcript_only_grows Sample.env Sample.form Sample.empty_world 0).
  - vm_compute. reflexivity.
  - vm_compute. reflexivity.
Defined.

(* ================================================================== *)
(** * The deletion block *)
(* ================================================================== *)
Module PathFacts.
Import Sys.

Lemma same_place_true a b : same_place a b = true -> a = b.
Proof. unfold same_place. destruct (list_eq_dec string_dec a b); [trivial | discriminate]. Qed.

Lemma same_place_refl a : same_place a a = true.
Proof. unfold same_place. destruct (list_eq_dec string_dec a a); [reflexivity | contradiction]. Qed.

Lemma split_free s : has_slash s = false -> Py.split "/" s = [s].
Proof.
  induction s as [|c r IH]; cbn [Py.split has_slash]; [reflexivity|].
  intros H. apply orb_false_elim in H. destruct H as [Hc Hr].
  rewrite Hc, (IH Hr). reflexivity.
Qed.

Lemma split_slash_free s : forall x, In x (Py.split "/" s) -> has_slash x = false.
Proof.
  induction s as [|c r IH]; cbn [Py.split]; intros x.
  - intros [<-|[]]. reflexivity.
  - destruct (Ascii.eqb c "/") eqn:Hc.
    + intros [<-|Hin]; [reflexivity | now apply IH].
    + destruct (Py.split "/" r) as [|f rest] eqn:Hs.
      * intros [<-|[]]. cbn [has_slash]. now rewrite Hc.
      * intros [<-|Hin].
        -- cbn [has_slash]. rewrite Hc. apply IH. now left.
        -- apply IH. now right.
Qed.

Lemma split_nonempty s : Py.split "/" s <> [].
Proof.
  destruct s as [|c r]; cbn [Py.split]; [discriminate|].
  destruct (Ascii.eqb c "/"); [discriminate|].
  destruct (Py.split "/" r); discriminate.
Qed.

Lemma last_in (l : list string) d : l <> [] -> In (last l d) l.
Proof.
  induction l as [|x [|y rest] IH]; intros H; [contradiction | now left |].
  right. apply IH. discriminate.
Qed.

(** The base name of a model identifier holds no [/]. *)
Lemma last_segment_free s : has_slash (Py.last_segment s) = false.
Proof.
  unfold Py.last_segment. apply (@split_slash_free s).
  apply last_in, split_nonempty.
Qed.

Lemma split_join a b :
  has_slash a = false -> Py.split "/" (a ++ "/" ++ b) = a :: Py.split "/" b.
Proof.
  induction a as [|c r IH]; intros H; cbn [append has_slash] in *.
  - reflexivity.
  - apply orb_false_elim in H. destruct H as [Hc Hr].
    cbn [Py.split]. rewrite Hc, (IH Hr). reflexivity.
Qed.

Lemma name_facts x :
  is_name x = true ->
  String.eqb x "" = false /\ String.eqb x "." = false /\ String.eqb x ".." = false
  /\ String.eqb x "/" = false /\ has_slash x = false.
Proof.
  unfold is_name, ordinary. intros H.
  apply andb_true_iff in H. destruct H as [Ho Hs].
  apply negb_true_iff in Ho, Hs.
  apply orb_false_elim in Ho. destruct Ho as [Ho H2].
  apply orb_false_elim in Ho. destruct Ho as [H0 H1].
  repeat split; try assumption.
  destruct (String.eqb_spec x "/") as [->|]; [discriminate Hs | reflexivity].
Qed.

Lemma first_char_of_name x b : is_name x = true -> Py.startswith "/" (x ++ b) = false.
Proof.
  intros H. destruct (@name_facts x H) as [H0 [_ [_ [_ Hs]]]].
  destruct x as [|c r]; [discriminate H0|].
  cbn [has_slash] in Hs. apply orb_false_elim in Hs. destruct Hs as [Hc _].
  unfold Py.startswith. cbn [append String.prefix].
  destruct (ascii_dec "/" c) as [<-|]; [discriminate Hc | reflexivity].
Qed.

Lemma name_not_absolute x : is_name x = true -> Py.startswith "/" x = false.
Proof.
  intros H. rewrite <- (StrFacts.append_nil_r x). now apply first_char_of_name.
Qed.

Lemma name_truthy x b : is_name x = true -> Py.truthy (x ++ b) = true.
Proof.
  intros H. destruct (@name_facts x H) as [H0 _].
  destruct x; [discriminate H0 | reflexivity].
Qed.

(** A name of two entry names designates the place under the first one. *)
Lemma norm_two a b : is_name a = true -> is_name b = true -> norm (a ++ "/" ++ b) = [a; b].
Proof.
  intros Ha Hb.
  destruct (@name_facts a Ha) as [Ha0 [Ha1 [Ha2 [_ Has]]]].
  destruct (@name_facts b Hb) as [Hb0 [Hb1 [Hb2 [_ Hbs]]]].
  unfold norm, start. rewrite (@first_char_of_name a _ Ha), (@split_join a b Has), (@split_free b Hbs).
  cbn [fold_left]. unfold step. rewrite Ha0, Ha1, Ha2, Hb0, Hb1, Hb2. reflexivity.
Qed.

Lemma path_exists_two a b l :
  is_name a = true -> is_name b = true -> path_exists (a ++ "/" ++ b) l = holds l [a; b].
Proof.
  intros Ha Hb.
  destruct (@name_facts a Ha) as [Ha0 [Ha1 [Ha2 [_ Has]]]].
  destruct (@name_facts b Hb) as [Hb0 [Hb1 [Hb2 [Hb3 Hbs]]]].
  unfold path_exists, start.
  rewrite (@name_truthy a _ Ha), (@first_char_of_name a _ Ha), (@split_join a b Has), (@split_free b Hbs).
  cbn [reach andb]. unfold step. rewrite Ha0, Ha1, Ha2, Hb0, Hb1, Hb2.
  cbn [orb andb present rev app]. rewrite Hb2, Hb3. reflexivity.
Qed.

(** What a stack of names is made of. *)
Definition mark (x : string) : bool :=
  String.eqb x ".." || String.eqb x "/" || is_name x.

Lemma step_marks stack seg :
  has_slash seg = false -> forallb mark stack = true -> forallb mark (step stack seg) = true.
Proof.
  intros Hs Hst. unfold step.
  destruct (String.eqb seg "") eqn:H0; [exact Hst|].
  destruct (String.eqb seg ".") eqn:H1; [exact Hst|].
  destruct (String.eqb seg "..") eqn:H2; cbn [orb].
  - destruct stack as [|top rest]; [reflexivity|].
    destruct (String.eqb top "..") eqn:Ht.
    + change (mark ".." && forallb mark (top :: rest) = true). rewrite Hst. reflexivity.
    + destruct (String.eqb top "/"); [exact Hst|].
      cbn [forallb] in Hst. apply andb_true_iff in Hst. exact (proj2 Hst).
  - cbn [forallb]. rewrite Hst. unfold mark, is_name, ordinary.
    rewrite H0, H1, H2, Hs. cbn. now rewrite orb_true_r.
Qed.

Lemma fold_marks segs :
  forall stack,
    (forall x, In x segs -> has_slash x = false) ->
    forallb mark stack = true -> forallb mark (fold_left step segs stack) = true.
Proof.
  induction segs as [|seg rest IH]; intros stack Hs Hst; [exact Hst|].
  cbn [fold_left]. apply IH.
  - intros x Hx. apply Hs. now right.
  - apply step_marks; [apply Hs; now left | exact Hst].
Qed.

Lemma norm_marks p x : In x (norm p) -> mark x = true.
Proof.
  unfold norm. intros Hx. apply in_rev in Hx.
  assert (H : forallb mark (fold_left step (Py.split "/" p) (start p)) = true).
  { apply fold_marks; [apply split_slash_free|].
    unfold start. destruct (Py.startswith "/" p); reflexivity. }
  rewrite forallb_forall in H. now apply H.
Qed.

Lemma below_cons a nd np l : below (a :: nd) np = Some l -> exists np', np = a :: np' /\ below nd np' = Some l.
Proof.
  destruct np as [|b np']; cbn [below]; [discriminate|].
  destruct (String.eqb_spec a b) as [<-|]; [|discriminate].
  intros H. now exists np'.
Qed.

(** The entries of [quantized_models] are the paths one name below it. *)
Lemma entry_of_quantized q n :
  entry_name "quantized_models" q = Some n ->
  norm q = ["quantized_models"; n] /\ is_name n = true.
Proof.
  unfold entry_name. change (norm "quantized_models") with ["quantized_models"].
  destruct (below ["quantized_models"] (norm q)) as [l|] eqn:Hb; [|discriminate].
  destruct (@below_cons _ _ _ _ Hb) as [np' [Hq Hl]]. cbn [below] in Hl.
  injection Hl as ->.
  destruct l as [|x [|y l]]; try discriminate.
  destruct (String.eqb x "..") eqn:H2; [discriminate|].
  destruct (String.eqb x "/") eqn:H3; [discriminate|].
  cbn [orb]. intros H. injection H as <-. split; [exact Hq|].
  assert (Hm : mark x = true).
  { apply (@norm_marks q x). rewrite Hq. right. now left. }
  unfold mark in Hm. rewrite H2, H3 in Hm. exact Hm.
Qed.

Lemma in_entries d l n : In n (entries d l) -> exists q, In q l /\ entry_name d q = Some n.
Proof.
  induction l as [|q l IH]; cbn [entries]; [intros []|].
  destruct (entry_name d q) as [m|] eqn:Hq.
  - intros [<-|Hin].
    + exists q. split; [now left | exact Hq].
    + destruct (IH Hin) as [q' [Hq' He]]. exists q'. split; [now right | exact He].
  - intros Hin. destruct (IH Hin) as [q' [Hq' He]]. exists q'. split; [now right | exact He].
Qed.

Lemma listdir_names l n : In n (listdir "quantized_models" l) -> is_name n = true.
Proof.
  unfold listdir. intros Hin. apply nodup_In in Hin.
  destruct (@in_entries _ _ _ Hin) as [q [_ Hq]].
  exact (proj2 (@entry_of_quantized _ _ Hq)).
Qed.

Lemma path_join_name a b :
  Py.truthy a = true -> Py.endswith "/" a = false -> is_name b = true ->
  Py.path_join a b = a ++ "/" ++ b.
Proof.
  intros Ha He Hb. unfold Py.path_join.
  rewrite (@name_not_absolute b Hb), Ha, He. reflexivity.
Qed.

(** Removing entries of the file system. *)
Lemma holds_filter_le (P : string -> bool) l n :
  holds (filter P l) n = true -> holds l n = true.
Proof.
  unfold holds. induction l as [|q l IH]; cbn [filter existsb]; [trivial|].
  destruct (P q); cbn [existsb].
  - intros H. apply orb_true_iff in H. destruct H as [H|H].
    + now rewrite H.
    + rewrite (IH H). apply orb_true_r.
  - intros H. rewrite (IH H). apply orb_true_r.
Qed.

Lemma holds_filter_keep (P : string -> bool) l n :
  (forall q, norm q = n -> P q = true) -> holds (filter P l) n = holds l n.
Proof.
  intros HP. unfold holds. induction l as [|q l IH]; cbn [filter existsb]; [reflexivity|].
  destruct (P q) eqn:HPq; cbn [existsb]; [now rewrite IH|].
  rewrite IH. destruct (same_place (norm q) n) eqn:Hs; [|reflexivity].
  apply same_place_true in Hs. rewrite (HP q Hs) in HPq. discriminate HPq.
Qed.

Lemma holds_filter_gone (P : string -> bool) l n :
  (forall q, norm q = n -> P q = false) -> holds (filter P l) n = false.
Proof.
  intros HP. unfold holds. induction l as [|q l IH]; cbn [filter existsb]; [reflexivity|].
  destruct (P q) eqn:HPq; cbn [existsb]; [|exact IH].
  rewrite IH. destruct (same_place (norm q) n) eqn:Hs; [|reflexivity].
  apply same_place_true in Hs. rewrite (HP q Hs) in HPq. discriminate HPq.
Qed.

Lemma present_filter_le (P : string -> bool) l stack :
  present (filter P l) stack = true -> present l stack = true.
Proof.
  destruct stack as [|top rest]; cbn [present]; [trivial|].
  intros H. apply orb_true_iff in H. destruct H as [H|H].
  - now rewrite H.
  - rewrite (@holds_filter_le P l _ H). apply orb_true_r.
Qed.

Lemma reach_filter_le (P : string -> bool) l segs :
  forall stack, reach (filter P l) stack segs = true -> reach l stack segs = true.
Proof.
  induction segs as [|seg rest IH]; intros stack; cbn [reach].
  - apply (@present_filter_le P).
  - intros H. apply andb_true_iff in H. destruct H as [H1 H2].
    rewrite (IH _ H2), andb_true_r.
    destruct (String.eqb seg ".."); [now apply (@present_filter_le P) | reflexivity].
Qed.

(** What does not exist does not come into being by removing something. *)
Lemma path_exists_filter_le (P : string -> bool) l p :
  path_exists p (filter P l) = true -> path_exists p l = true.
Proof.
  unfold path_exists. intros H. apply andb_true_iff in H. destruct H as [H1 H2].
  now rewrite H1, (@reach_filter_le P l _ _ H2).
Qed.

Lemma entries_filter_keep (P : string -> bool) d l :
  (forall q n, entry_name d q = Some n -> P q = true) ->
  entries d (filter P l) = entries d l.
Proof.
  intros HP. induction l as [|q l IH]; cbn [filter entries]; [reflexivity|].
  destruct (P q) eqn:HPq; cbn [entries]; [now rewrite IH|].
  rewrite IH. destruct (entry_name d q) as [n|] eqn:Hn; [|reflexivity].
  rewrite (HP q n Hn) in HPq. discriminate HPq.
Qed.

Lemma within_two_self a b : is_name a = true -> within [a; b] [a; b] = true.
Proof.
  intros Ha. destruct (@name_facts a Ha) as [_ [_ [H2 _]]].
  unfold within. cbn [forallb]. rewrite String.eqb_sym, H2. cbn [andb starts_with].
  now rewrite !String.eqb_refl.
Qed.

(** The tree of a model directory holds nothing of [quantized_models]. *)
Lemma under_models_quantized base q rest :
  is_name base = true -> norm q = "quantized_models" :: rest ->
  under ("models" ++ "/" ++ base) q = false.
Proof.
  intros Hb Hq. unfold under.
  rewrite (@norm_two "models" base eq_refl Hb), Hq. reflexivity.
Qed.

End PathFacts.

Module CleanupFacts.
Import Notions.
Import Sys.
Import Gen.
Import StrFacts.
Import PathFacts.

Lemma occurs_end log s : occurs s (log ++ s).
Proof. exists log, "". now rewrite append_nil_r. Qed.

Lemma occurs_extends s a b : occurs s a -> extends a b -> occurs s b.
Proof.
  intros [pre [post ->]] [suffix ->]. exists pre, (post ++ suffix).
  now rewrite !append_assoc.
Qed.

Lemma filter_all {A} (l : list A) : filter (fun _ => true) l = l.
Proof. induction l as [|x l IH]; cbn; [reflexivity | now rewrite IH]. Qed.

Lemma filter_twice {A} (P Q : A -> bool) (l : list A) :
  filter Q (filter P l) = filter (fun x => P x && Q x) l.
Proof.
  induction l as [|x l IH]; cbn [filter]; [reflexivity|].
  destruct (P x); cbn [filter andb]; [destruct (Q x); now rewrite IH | exact IH].
Qed.

Lemma removes_nil E w : removes E [] w w.
Proof.
  split; [cbn; now rewrite app_nil_r|].
  exists (fun _ => true). split; [now rewrite filter_all|]. split; reflexivity.
Qed.

Lemma removes_trans E ds1 ds2 w w1 w2 :
  removes E ds1 w w1 -> removes E ds2 w1 w2 -> removes E (ds1 ++ ds2) w w2.
Proof.
  intros [Hc1 [P1 [Hf1 [HP1 Hx1]]]] [Hc2 [P2 [Hf2 [HP2 Hx2]]]]. split.
  - rewrite Hc2, Hc1, map_app. now rewrite app_assoc.
  - exists (fun q => P1 q && P2 q). split; [|split].
    + rewrite Hf2, Hf1. apply filter_twice.
    + intros q Hq. rewrite HP1, HP2; [reflexivity| |];
        intros d Hd; apply Hq, in_or_app; [now right | now left].
    + intros Hok q. rewrite (Hx1 Hok q), (Hx2 Hok q), existsb_app, negb_orb. reflexivity.
Qed.

Lemma removes_gone E ds w w' p :
  removes E ds w w' -> path_exists p (fs w) = false -> path_exists p (fs w') = false.
Proof.
  intros [_ [P [Hf _]]] Hp. rewrite Hf.
  destruct (path_exists p (filter P (fs w))) eqn:H; [|reflexivity].
  apply path_exists_filter_le in H. congruence.
Qed.

Lemma recorded_later E d log log' w w' ds :
  recorded d log w -> extends log log' -> removes E ds w w' -> recorded d log' w'.
Proof.
  intros [[Hgone [what Ho]]|[wording [e Ho]]] He Hr.
  - left. split; [eapply removes_gone; eassumption|].
    exists what. eapply occurs_extends; eassumption.
  - right. exists wording, e. eapply occurs_extends; eassumption.
Qed.

(** One guarded deletion, of a directory one name below [models] or
    [quantized_models]. *)
Lemma remove_logged_run E what a b wording log w :
  is_name a = true -> is_name b = true ->
  exists log' w',
    App.remove_logged E what (a ++ "/" ++ b) wording log w = mkRun [] (Done log') w'
    /\ removes E [a ++ "/" ++ b] w w'
    /\ extends log log'
    /\ recorded (a ++ "/" ++ b) log' w'.
Proof.
  intros Ha Hb. set (path := a ++ "/" ++ b).
  unfold App.remove_logged, bind, attempt, App.rmtree, ret.
  destruct (rmtree_failure E path w) as [[e kept]|] eqn:Hf; cbn [yielded outcome final app].
  - do 2 eexists. split; [reflexivity|]. split; [|split].
    + split; [reflexivity|]. eexists. split; [reflexivity|]. split.
      * intros q Hq. cbn beta. rewrite (Hq path (or_introl eq_refl)). reflexivity.
      * intros Hok. rewrite (Hok path w) in Hf. discriminate Hf.
    + apply extends_append.
    + right. exists wording, e. apply occurs_end.
  - do 2 eexists. split; [reflexivity|]. split; [|split].
    + split; [reflexivity|]. eexists. split; [reflexivity|]. split.
      * intros q Hq. cbn beta. rewrite (Hq path (or_introl eq_refl)). reflexivity.
      * intros _ q. cbn [existsb]. now rewrite orb_false_r.
    + apply extends_append.
    + left. split.
      * cbn [set_fs fs]. subst path. rewrite (@path_exists_two a b _ Ha Hb).
        apply holds_filter_gone. intros q Hq. unfold under.
        rewrite (@norm_two a b Ha Hb), Hq, (@within_two_self a b Ha). reflexivity.
      * exists what. apply occurs_end.
Qed.

Lemma get_world_bind {A} (k : World -> Gen.t A) w :
  bind get_world k w = mkRun (yielded (k w w)) (outcome (k w w)) (final (k w w)).
Proof. reflexivity. Qed.

Lemma path_join_quantized x :
  is_name x = true -> Py.path_join "quantized_models" x = "quantized_models" ++ "/" ++ x.
Proof. intros Hx. now apply path_join_name. Qed.

(** The loop over the entries of [quantized_models]. *)
Lemma quantized_loop_run E base l :
  (forall x, In x l -> is_name x = true) ->
  forall log w,
  exists log' w',
    App.for_each_log l
      (fun folder full_log =>
         if Py.startswith (base ++ "-") folder then
           App.remove_logged E "quantized model" (Py.path_join "quantized_models" folder)
             "quantized" full_log
         else ret full_log) log w
    = mkRun [] (Done log') w'
    /\ removes E (map (Py.path_join "quantized_models")
                      (filter (Py.startswith (base ++ "-")) l)) w w'
    /\ extends log log'
    /\ forall folder, In folder l -> Py.startswith (base ++ "-") folder = true ->
         recorded (Py.path_join "quantized_models" folder) log' w'.
Proof.
  induction l as [|x rest IH]; intros Hl log w; cbn [App.for_each_log filter map].
  - exists log, w. split; [reflexivity|]. split; [apply removes_nil|].
    split; [apply extends_refl|]. intros folder [].
  - assert (Hrest : forall y, In y rest -> is_name y = true)
      by (intros y Hy; apply Hl; now right).
    assert (Hx' : is_name x = true) by (apply Hl; now left).
    destruct (Py.startswith (base ++ "-") x) eqn:Hx.
    + destruct (@remove_logged_run E "quantized model" "quantized_models" x "quantized"
                  log w eq_refl Hx')
        as [log1 [w1 [Hrun [Hrem [Hext Hrec]]]]].
      rewrite <- (@path_join_quantized x Hx') in Hrun, Hrem, Hrec.
      destruct (IH Hrest log1 w1) as [log' [w' [Hrun' [Hrem' [Hext' Hrec']]]]].
      exists log', w'.
      erewrite GenFacts.bind_eq by exact Hrun. rewrite Hrun'.
      split; [reflexivity|]. split; [|split].
      * cbn [map]. exact (removes_trans Hrem Hrem').
      * eapply extends_trans; eassumption.
      * intros folder [<-|Hin] Hf.
        -- eapply recorded_later; eassumption.
        -- now apply Hrec'.
    + destruct (IH Hrest log w) as [log' [w' [Hrun' [Hrem' [Hext' Hrec']]]]].
      exists log', w'.
      erewrite GenFacts.bind_eq by reflexivity. rewrite Hrun'.
      split; [reflexivity|]. split; [exact Hrem'|]. split; [exact Hext'|].
      intros folder [<-|Hin] Hf; [congruence | now apply Hrec'].
Qed.

Lemma path_exists_quantized l :
  path_exists "quantized_models" l = holds l ["quantized_models"].
Proof. reflexivity. Qed.

(** The deletion block for a model whose base name is the name of a
    directory, on a machine where [quantized_models] can be listed. *)
Lemma cleanup_run E F model_id log w :
  ordinary (Py.last_segment model_id) = true ->
  (forall w0, listdir_failure E "quantized_models" w0 = None) ->
  exists log' w',
    App.cleanup E F model_id log w = mkRun [] (Done log') w'
    /\ removes E (targets F model_id w) w w'
    /\ extends log log'
    /\ forall d, In d (targets F model_id w) -> recorded d log' w'.
Proof.
  intros Hord Hlistable.
  unfold App.cleanup, targets. cbv zeta.
  set (base := Py.last_segment model_id) in *.
  assert (Hbase : is_name base = true).
  { unfold is_name. rewrite Hord. subst base. now rewrite last_segment_free. }
  rewrite (@path_join_name "models" base eq_refl eq_refl Hbase).
  set (orig := "models" ++ "/" ++ base).
  (* the original model directory *)
  assert (H1 : exists log1 w1,
             (if App.delete_original F
              then bind get_world (fun w0 =>
                     if path_exists orig (fs w0)
                     then App.remove_logged E "original model" orig "original model" log
                     else ret log)
              else ret log) w = mkRun [] (Done log1) w1
             /\ removes E (if App.delete_original F && path_exists orig (fs w)
                           then [orig] else []) w w1
             /\ extends log log1
             /\ (App.delete_original F && path_exists orig (fs w) = true ->
                 recorded orig log1 w1)).
  { destruct (App.delete_original F); cbn [andb].
    - rewrite get_world_bind.
      destruct (path_exists orig (fs w)).
      + destruct (@remove_logged_run E "original model" "models" base "original model"
                    log w eq_refl Hbase)
          as [log1 [w1 [Hrun [Hrem [Hext Hrec]]]]].
        exists log1, w1. fold orig in Hrun, Hrem, Hrec. rewrite Hrun.
        cbn [yielded outcome final].
        split; [reflexivity|]. split; [exact Hrem|]. split; [exact Hext|].
        intros _. exact Hrec.
      + exists log, w. split; [reflexivity|]. split; [apply removes_nil|].
        split; [apply extends_refl | discriminate].
    - exists log, w. split; [reflexivity|]. split; [apply removes_nil|].
      split; [apply extends_refl | discriminate]. }
  destruct H1 as [log1 [w1 [Hrun1 [Hrem1 [Hext1 Hrec1]]]]].
  erewrite GenFacts.bind_eq by exact Hrun1. cbn [app].
  (* the world after it shows the same [quantized_models] *)
  assert (Hkeep : forall q rest, norm q = "quantized_models" :: rest ->
                    forall d, In d (if App.delete_original F && path_exists orig (fs w)
                                    then [orig] else []) -> under d q = false).
  { intros q rest Hq d Hd.
    destruct (App.delete_original F && path_exists orig (fs w)); [|contradiction].
    destruct Hd as [<-|[]]. exact (@under_models_quantized base q rest Hbase Hq). }
  assert (Hsame : path_exists "quantized_models" (fs w1)
                  = path_exists "quantized_models" (fs w)).
  { rewrite !path_exists_quantized.
    destruct Hrem1 as [_ [P [Hf [HP _]]]]. rewrite Hf.
    apply holds_filter_keep. intros q Hq. apply HP. exact (Hkeep q [] Hq). }
  assert (Hlist : listdir "quantized_models" (fs w1) = listdir "quantized_models" (fs w)).
  { unfold listdir. destruct Hrem1 as [_ [P [Hf [HP _]]]]. rewrite Hf.
    rewrite entries_filter_keep; [reflexivity|].
    intros q n Hn. apply HP.
    exact (Hkeep q [n] (proj1 (@entry_of_quantized _ _ Hn))). }
  (* the quantized output directories *)
  destruct (App.delete_quantized F); cbn [andb].
  - rewrite get_world_bind. rewrite Hsame.
    destruct (path_exists "quantized_models" (fs w)).
    + assert (Hdir : App.do_listdir E "quantized_models" w1
                     = mkRun [] (Done (listdir "quantized_models" (fs w))) w1).
      { unfold App.do_listdir. now rewrite Hlistable, Hlist. }
      erewrite GenFacts.bind_eq by exact Hdir. cbn [app].
      destruct (@quantized_loop_run E base (listdir "quantized_models" (fs w))
                  (fun x Hx => @listdir_names _ x Hx) log1 w1)
        as [log' [w' [Hrun' [Hrem' [Hext' Hrec']]]]].
      exists log', w'. rewrite Hrun'. cbn [yielded outcome final].
      split; [reflexivity|]. split; [exact (removes_trans Hrem1 Hrem')|].
      split; [eapply extends_trans; eassumption|].
      intros d Hd. apply in_app_or in Hd. destruct Hd as [Hd|Hd].
      * destruct (App.delete_original F && path_exists orig (fs w)) eqn:Ho;
          [|contradiction].
        destruct Hd as [<-|[]].
        eapply recorded_later; [exact (Hrec1 eq_refl) | exact Hext' | exact Hrem'].
      * apply in_map_iff in Hd. destruct Hd as [folder [<- Hf]].
        apply filter_In in Hf. destruct Hf as [Hin Hpre]. now apply Hrec'.
    + exists log1, w1. split; [reflexivity|].
      rewrite app_nil_r. split; [exact Hrem1|]. split; [exact Hext1|].
      intros d Hd.
      destruct (App.delete_original F && path_exists orig (fs w)) eqn:Ho;
        [|contradiction].
      destruct Hd as [<-|[]]. exact (Hrec1 eq_refl).
  - exists log1, w1. split; [reflexivity|].
    rewrite app_nil_r. split; [exact Hrem1|]. split; [exact Hext1|].
    intros d Hd.
    destruct (App.delete_original F && path_exists orig (fs w)) eqn:Ho;
      [|contradiction].
    destruct Hd as [<-|[]]. exact (Hrec1 eq_refl).
Qed.

End CleanupFacts.

(** C8 does not hold as it stands. The base name is what follows the last
    [/]: for the identifier [org/foo/] it is empty, the original model
    directory is [models/], which is [models] itself, and with
    [delete_original] set the deletion block removes every downloaded model,
    here also the directory of model [bar]. And the listing of
    [quantized_models] is outside every [try]: where the path exists and
    cannot be listed, the [OSError] of [os.listdir] leaves the block, and with
    it the batch. *)
Theorem cleanup_after_a_trailing_slash_deletes_every_model :
  let F := App.mkForm "org/foo/" "token" "user" true "Q4_K_M" false "" false ""
             false "" false "" false Sample.knobs true false in
  let w := Sys.mkWorld ["models"; "models/foo"; "models/foo/config.json";
                        "models/bar"; "models/bar/config.json"; "quantized_models"] [] in
  let r := App.cleanup Sample.env F "org/foo/" "" w in
  let G := App.mkForm "org/foo" "token" "user" true "Q4_K_M" false "" false ""
             false "" false "" false Sample.knobs false true in
  (Py.last_segment "org/foo/" = ""
   /\ Sys.path_exists "models/bar" (Sys.fs w) = true
   /\ Gen.outcome r = Gen.Done ("[INFO] Deleted original model folder: models/" ++ Py.nl)
   /\ Sys.calls (Gen.final r) = [Sys.Rmtree "models/"]
   /\ Sys.fs (Gen.final r) = ["quantized_models"]
   /\ Sys.path_exists "models/bar" (Sys.fs (Gen.final r)) = false)
  /\ Gen.outcome (App.cleanup Cases.unlistable G "org/foo" ""
                    (Sys.mkWorld ["quantized_models"] []))
     = Gen.Raised (Sys.mkExn Sys.OSError "[Errno 20] Not a directory: 'quantized_models'").
Proof. repeat split. Qed.

(** C8, as it holds. Let the base name of the model identifier be the name
    of a directory (not empty, not [.] and not [..]) and let the listing of
    [quantized_models] not fail. Then the deletion block that ends the model's
    turn does not raise and yields nothing. It calls [rmtree] on
    [models/<base name>] when [delete_original] is set and that directory
    exists, then, when [delete_quantized] is set and [quantized_models]
    exists, on every entry of [quantized_models] whose name starts with the
    base name followed by [-], and on nothing else. Nothing is added to the
    file system, and every path outside these trees stays. For each of these
    trees, either it is gone and its deletion is in the transcript, or the
    error that kept it is. When no deletion fails, the file system afterwards
    is the one before without these trees. *)
Theorem cleanup_of_a_named_model_deletes_only_its_directories :
  forall (E : Sys.Env) (F : App.Form) (model_id log : string) (w : Sys.World),
    let base := Py.last_segment model_id in
    let targets :=
      ((if App.delete_original F
           && Sys.path_exists (Py.path_join "models" base) (Sys.fs w)
        then [Py.path_join "models" base] else [])
       ++ (if App.delete_quantized F && Sys.path_exists "quantized_models" (Sys.fs w)
           then map (Py.path_join "quantized_models")
                    (filter (Py.startswith (base ++ "-"))
                            (Sys.listdir "quantized_models" (Sys.fs w)))
           else []))%list in
    let r := App.cleanup E F model_id log w in
    Sys.ordinary base = true ->
    (forall w0, Sys.listdir_failure E "quantized_models" w0 = None) ->
    exists log',
      Gen.outcome r = Gen.Done log'
      /\ Gen.yielded r = []
      /\ (exists appended, log' = log ++ appended)
      /\ Sys.calls (Gen.final r) = (Sys.calls w ++ map Sys.Rmtree targets)%list
      /\ (forall q, In q (Sys.fs (Gen.final r)) -> In q (Sys.fs w))
      /\ (forall q, In q (Sys.fs w) ->
            (forall d, In d targets -> Sys.under d q = false) ->
            In q (Sys.fs (Gen.final r)))
      /\ (forall d, In d targets ->
            (Sys.path_exists d (Sys.fs (Gen.final r)) = false
             /\ exists what pre post,
                  log' = pre ++ ("[INFO] Deleted " ++ what ++ " folder: " ++ d ++ Py.nl)
                         ++ post)
            \/ (exists wording e pre post,
                  log' = pre ++ ("[ERROR] Could not delete " ++ wording ++ " folder " ++ d
                                 ++ ": " ++ Sys.message e ++ Py.nl) ++ post))
      /\ ((forall p w0, Sys.rmtree_failure E p w0 = None) ->
            Sys.fs (Gen.final r)
            = filter (fun q => negb (existsb (fun d => Sys.under d q) targets)) (Sys.fs w)).
Proof.
  intros E F model_id log w base targets r Hbase Hlistable.
  destruct (@CleanupFacts.cleanup_run E F model_id log w Hbase Hlistable)
    as [log' [w' [Hrun [[Hcalls [P [Hfs [HP Hexact]]]] [Hext Hrec]]]]].
  exists log'. subst r. rewrite Hrun. cbn [Gen.yielded Gen.outcome Gen.final].
  split; [reflexivity|]. split; [reflexivity|]. split; [exact Hext|].
  split; [exact Hcalls|]. split; [|split; [|split]].
  - intros q Hq. rewrite Hfs in Hq. apply filter_In in Hq. exact (proj1 Hq).
  - intros q Hq Hout. rewrite Hfs. apply filter_In. split; [exact Hq | exact (HP q Hout)].
  - intros d Hd.
    destruct (Hrec d Hd) as [[Hgone [what [pre [post Ho]]]]|[wording [e [pre [post Ho]]]]].
    + left. split; [exact Hgone|]. now exists what, pre, post.
    + right. now exists wording, e, pre, post.
  - intros Hok. rewrite Hfs. apply filter_ext. exact (Hexact Hok).
Qed.

(** An instance: cleaning up after model [foo] with [delete_quantized] set
    removes both output directories of [foo] and leaves the one of model
    [bar] where it is. *)
Lemma cleanup_of_a_named_model_deletes_only_its_directories_witness :
  Sys.fs
    (Gen.final
       (App.cleanup Sample.env
          (App.mkForm "org/foo" "token" "user" true "Q4_K_M" false "" false ""
             true "" false "" false Sample.knobs false true)
          "org/foo" ""
          (Sys.mkWorld
             ["quantized_models"; "quantized_models/foo-GGUF";
              "quantized_models/foo-GGUF/foo-Q4_K_M.gguf";
              "quantized_models/foo-AWQ"; "quantized_models/bar-GGUF"] [])))
  = ["quantized_models"; "quantized_models/bar-GGUF"].
Proof.
  destruct (@cleanup_of_a_named_model_deletes_only_its_directories Sample.env
              (App.mkForm "org/foo" "token" "user" true "Q4_K_M" false "" false ""
                 true "" false "" false Sample.knobs false true)
              "org/foo" ""
              (Sys.mkWorld
                 ["quantized_models"; "quantized_models/foo-GGUF";
                  "quantized_models/foo-GGUF/foo-Q4_K_M.gguf";
                  "quantized_models/foo-AWQ"; "quantized_models/bar-GGUF"] [])
              eq_refl (fun _ => eq_refl))
    as [log' [_ [_ [_ [_ [_ [_ [_ Hexact]]]]]]]].
  rewrite (Hexact (fun _ _ => eq_refl)). reflexivity.
Defined.

(** The run behind that instance: both directories of [foo] are handed to
    [rmtree], and only they. *)
Example cleanup_foo_bar :
  Gen.final
    (App.cleanup Sample.env
       (App.mkForm "org/foo" "token" "user" true "Q4_K_M" false "" false ""
          true "" false "" false Sample.knobs false true)
       "org/foo" ""
       (Sys.mkWorld
          ["quantized_models"; "quantized_models/foo-GGUF";
           "quantized_models/foo-GGUF/foo-Q4_K_M.gguf";
           "quantized_models/foo-AWQ"; "quantized_models/bar-GGUF"] []))
  = Sys.mkWorld ["quantized_models"; "quantized_models/bar-GGUF"]
      [Sys.Rmtree "quantized_models/foo-GGUF"; Sys.Rmtree "quantized_models/foo-AWQ"].
Proof. reflexivity. Qed.

(** The same through the orchestrator: the identifier [org/foo/] reaches the
    deletion block as it was typed, and the run for it removes the directory
    of model [bar]. *)
Example batch_after_a_trailing_slash_deletes_every_model :
  let F := App.mkForm "org/foo/" "token" "user" false "Q4_K_M" false "" false ""
             false "" true "2, 128" false Sample.knobs true false in
  let w := Sys.mkWorld ["models"; "models/bar"; "models/bar/config.json"] [] in
  let r := App.quant_tavern_ui Sample.env F w in
  Gen.outcome r = Gen.Done tt
  /\ Sys.calls (Gen.final r)
     = [Sys.SnapshotDownload "org/foo/"; Sys.CreateRepo "user/-HQQ"; Sys.Rmtree "models/"]
  /\ Sys.path_exists "models/bar" (Sys.fs w) = true
  /\ Sys.path_exists "models/bar" (Sys.fs (Gen.final r)) = false.
Proof. repeat split; vm_compute; reflexivity. Qed.

(** For the identifier [org/..] the original model directory is [models/..],
    the working directory: [rmtree] removes everything below it, the
    quantized outputs of every model included, and then fails on the
    directory itself; the transcript holds the error. *)
Example cleanup_after_dot_dot_empties_the_working_directory :
  App.cleanup Cases.hollowing
    (App.mkForm "org/.." "token" "user" true "Q4_K_M" false "" false ""
       false "" false "" false Sample.knobs true true)
    "org/.." ""
    (Sys.mkWorld ["models"; "models/bar"; "quantized_models"; "quantized_models/bar-GGUF";
                  "../elsewhere"] [])
  = Gen.mkRun []
      (Gen.Done ("[ERROR] Could not delete original model folder models/..: "
                 ++ "[Errno 2] No such file or directory: 'models/..'" ++ Py.nl))
      (Sys.mkWorld ["../elsewhere"] [Sys.Rmtree "models/.."]).
Proof. reflexivity. Qed.

(* ================================================================== *)
(** * Failures inside a method executor *)
(* ================================================================== *)

(** C1 fails on the code. With two models, GPTQ and HQQ selected and the
    GPTQ parameter string ["x, 128, 0.1"], the [ValueError] of [int("x")]
    leaves [quantize_gptq], which has no [try] around its body, and then
    [quant_tavern_ui], which has none either: the run ends with that
    exception after eight transcripts, the last of which stops at the GPTQ
    banner; HQQ is not run for the first model and the second model is never
    reached. *)
Theorem gptq_parse_failure_ends_the_batch :
  Gen.outcome (App.quant_tavern_ui Sample.env Sample.bad_gptq_form Sample.empty_world)
  = Gen.Raised (Sys.mkExn Sys.ValueError "invalid literal for int() with base 10: 'x'")
  /\ List.length
       (Gen.yielded (App.quant_tavern_ui Sample.env Sample.bad_gptq_form Sample.empty_world))
     = 8
  /\ last (Gen.yielded
             (App.quant_tavern_ui Sample.env Sample.bad_gptq_form Sample.empty_world)) ""
     = "=== Starting SpongeQuant Quantization Process ===" ++ Py.nl
       ++ Py.nl ++ "=== Processing model: org/a ===" ++ Py.nl
       ++ "=== Downloading Model ===" ++ Py.nl
       ++ "[INFO] Model ID: org/a" ++ Py.nl
       ++ "[INFO] Target directory: models/a" ++ Py.nl
       ++ "[INFO] Model directory does not exist. Starting download..." ++ Py.nl
       ++ "[INFO] Downloading model org/a..." ++ Py.nl
       ++ "[INFO] Model downloaded and patched at: models/a" ++ Py.nl
       ++ "[INFO] Running GPTQ quantization..." ++ Py.nl
       ++ "=== GPTQ Quantization ===" ++ Py.nl
  /\ Sys.calls
       (Gen.final (App.quant_tavern_ui Sample.env Sample.bad_gptq_form Sample.empty_world))
     = [Sys.SnapshotDownload "org/a"].
Proof. repeat split; vm_compute; reflexivity. Qed.

(** The sibling executors do what C1 asks: the same failure inside
    [quantize_awq] is caught by the [try] around its body and becomes a line
    of the transcript. *)
Example awq_parse_failure_is_caught :
  App.quantize_awq Sample.env "org/a" "x, 128, GEMM, True" "token" "user" Sample.empty_world
  = Gen.mkRun
      ["=== AWQ Quantization ===" ++ Py.nl;
       "[ERROR] Error during AWQ quantization: invalid literal for int() with base 10: 'x'"
       ++ Py.nl]
      (Gen.Done tt) Sample.empty_world.
Proof. reflexivity. Qed.

(* ================================================================== *)
(** * Examples *)
(* ================================================================== *)

Example strip_ex : Py.strip "  4, 128 " = "4, 128".
Proof. reflexivity. Qed.

Example split_ex : Py.split "," "8,64" = ["8"; "64"].
Proof. reflexivity. Qed.

Example split_empty_ex : Py.split "," "" = [""].
Proof. reflexivity. Qed.

Example last_segment_ex : Py.last_segment "org/modelA" = "modelA".
Proof. reflexivity. Qed.

Example splitlines_ex :
  Py.splitlines ("a/b" ++ String "010" ("" ++ String "013" (String "010" "c/d")))
  = ["a/b"; ""; "c/d"].
Proof. reflexivity. Qed.

Example int_ex : Py.int " 1_28 " = Some 128%Z /\ Py.int "x" = None /\ Py.int "-4" = Some (-4)%Z.
Proof. repeat split. Qed.

Example str_int_ex : Py.str_int 128 = "128" /\ Py.str_int 0 = "0" /\ Py.str_int (-3) = "-3".
Proof. repeat split. Qed.

Example path_join_ex : Py.path_join "models" "modelA" = "models/modelA".
Proof. reflexivity. Qed.

Example format_quant_type_ex :
  App.format_quant_type "I1-gguf" = "i1-GGUF" /\ App.format_quant_type "exl2" = "EXL2".
Proof. split; reflexivity. Qed.

(** The end-to-end scenario: one model, GGUF with [Q4_K_M], no importance
    matrix. *)
Example end_to_end_calls :
  Sys.calls (Gen.final (App.quant_tavern_ui Sample.env Sample.form Sample.empty_world))
  = [Sys.SnapshotDownload "org/modelA";
     Sys.Popen (App.build_llama_cmd Sample.env "convert_hf_to_gguf.py"
                  ["models/modelA"; "--outtype"; "bf16"; "--outfile";
                   "quantized_models/modelA-GGUF/modela.bf16.gguf"]);
     Sys.Popen (App.build_llama_cmd Sample.env "llama-quantize"
                  ["quantized_models/modelA-GGUF/modela.bf16.gguf";
                   "quantized_models/modelA-GGUF/modela-Q4_K_M.gguf"; "Q4_K_M"]);
     Sys.CreateRepo "user/modelA-GGUF"].
Proof. vm_compute. reflexivity. Qed.

(** With the hub out of reach and the model directory on disk, the oracle
    answers false and the download is attempted; its failure is a line of
    the transcript. *)
Example download_with_hub_unreachable :
  App.download_model Sample.offline "org/modelA" "token"
    (Sys.mkWorld ["models/modelA/config.json"; "models/modelA"] [])
  = Gen.mkRun
      ["=== Downloading Model ===" ++ Py.nl;
       "[INFO] Model ID: org/modelA" ++ Py.nl;
       "[INFO] Target directory: models/modelA" ++ Py.nl;
       "[WARN] Model directory exists but files appear incomplete. Re-downloading..."
       ++ Py.nl;
       "[INFO] Downloading model org/modelA..." ++ Py.nl;
       "[ERROR] Error downloading model: connection refused" ++ Py.nl]
      (Gen.Done tt)
      (Sys.mkWorld ["models/modelA/config.json"; "models/modelA"]
         [Sys.SnapshotDownload "org/modelA"]).
Proof. reflexivity. Qed.

(** A deletion that fails is written down and the block goes on. *)
Example cleanup_with_failing_rmtree :
  App.cleanup Sample.offline
    (App.mkForm "org/foo" "token" "user" true "Q4_K_M" false "" false ""
       true "" false "" false Sample.knobs true true)
    "org/foo" ""
    (Sys.mkWorld ["models/foo"; "quantized_models"; "quantized_models/foo-GGUF"] [])
  = Gen.mkRun []
      (Gen.Done
         ("[ERROR] Could not delete original model folder models/foo: permission denied"
          ++ Py.nl
          ++ "[ERROR] Could not delete quantized folder quantized_models/foo-GGUF: permission denied"
          ++ Py.nl))
      (Sys.mkWorld ["models/foo"; "quantized_models"; "quantized_models/foo-GGUF"]
         [Sys.Rmtree "models/foo"; Sys.Rmtree "quantized_models/foo-GGUF"]).
Proof. reflexivity. Qed.

(* ================================================================== *)
(** * Failures inside the executors *)
(* ================================================================== *)
Module ExecutorFacts.
Import Sys.
Import Gen.
Import Notions.
Import Control.

Lemma try_except_returns (m : Gen.t unit) (h : Exn -> Gen.t unit) :
  (forall e, returns (h e)) -> forall w, outcome (try_except m h w) = Done tt.
Proof.
  intros Hh w. unfold try_except, bind, attempt.
  destruct (outcome (m w)) as [a|e]; cbn [outcome final yielded].
  - reflexivity.
  - destruct (Hh e (final (m w))) as [[] Ho]. exact Ho.
Qed.

Lemma returns_yield s : returns (yield s).
Proof. intros w. now exists tt. Qed.

Lemma awq_never_raises E model_id param token user w :
  outcome (App.quantize_awq E model_id param token user w) = Done tt.
Proof. apply try_except_returns. intros e. apply returns_yield. Qed.

Lemma hqq_never_raises E model_id param token user w :
  outcome (App.quantize_hqq E model_id param token user w) = Done tt.
Proof. apply try_except_returns. intros e. apply returns_yield. Qed.

Lemma exllamav2_never_raises E model_id param token user w :
  outcome (App.quantize_exllamav2 E model_id param token user w) = Done tt.
Proof. apply try_except_returns. intros e. apply returns_yield. Qed.

Lemma lib_call_failure E c w e fs' :
  lib E c w = (inl e, fs') ->
  App.lib_call E c w = mkRun [] (Raised e) (set_fs fs' w).
Proof. intros H. unfold App.lib_call, call. now rewrite H. Qed.

Lemma attempt_lib_call_failure E c w e fs' :
  lib E c w = (inl e, fs') ->
  attempt (App.lib_call E c) w = mkRun [] (Done (inl e)) (set_fs fs' w).
Proof. intros H. unfold attempt. now rewrite (lib_call_failure E c w H). Qed.

End ExecutorFacts.

(** X1. The ExLlamaV2, AWQ and HQQ executors never raise: whatever the
    parameter string and whatever the collaborators do, each one ends with
    a normal return. *)
Theorem wrapped_executors_never_raise :
  forall (E : Sys.Env) (model_id param token user : string) (w : Sys.World),
    Gen.outcome (App.quantize_exllamav2 E model_id param token user w) = Gen.Done tt
    /\ Gen.outcome (App.quantize_awq E model_id param token user w) = Gen.Done tt
    /\ Gen.outcome (App.quantize_hqq E model_id param token user w) = Gen.Done tt.
Proof.
  intros. split; [apply ExecutorFacts.exllamav2_never_raises|].
  split; [apply ExecutorFacts.awq_never_raises | apply ExecutorFacts.hqq_never_raises].
Qed.

(** X2. When importing [transformers] raises an [ImportError],
    [quantize_gptq] yields the one line that names the missing package and
    returns, without parsing its parameters or making any call; any other
    exception of that import leaves the executor. *)
Theorem gptq_without_transformers_yields_one_line :
  forall (E : Sys.Env) (model_id param token user : string) (w : Sys.World)
         (e : Sys.Exn) (fs' : Sys.FS),
    Sys.lib E (Sys.Import "transformers") w = (inl e, fs') ->
    App.quantize_gptq E model_id param token user w
    = if Sys.is_import_error e
      then Gen.mkRun
             ["[ERROR] GPU-specific quantization (GPTQ) requires the 'transformers' package. Please use a GPU container or install the dependency."
              ++ Py.nl]
             (Gen.Done tt) (Sys.set_fs fs' w)
      else Gen.mkRun [] (Gen.Raised e) (Sys.set_fs fs' w).
Proof.
  intros E model_id param token user w e fs' H.
  unfold App.quantize_gptq.
  erewrite GenFacts.bind_eq by (apply ExecutorFacts.attempt_lib_call_failure; exact H).
  cbv beta iota.
  destruct (Sys.is_import_error e); reflexivity.
Qed.

Lemma gptq_without_transformers_yields_one_line_witness :
  App.quantize_gptq Cases.no_libraries "org/modelA" "x, 128, 0.1" "token" "user"
    Sample.empty_world
  = Gen.mkRun
      ["[ERROR] GPU-specific quantization (GPTQ) requires the 'transformers' package. Please use a GPU container or install the dependency."
       ++ Py.nl]
      (Gen.Done tt) Sample.empty_world.
Proof.
  apply (@gptq_without_transformers_yields_one_line Cases.no_libraries "org/modelA"
           "x, 128, 0.1" "token" "user" Sample.empty_world
           (Cases.missing "transformers") []).
  reflexivity.
Defined.

(** X3. When the [awq] package cannot be imported and the parameter string
    is blank, [quantize_awq] yields its banner, the line with the default
    parameters and exactly one error line that carries the exception's text,
    then returns; it makes no call. *)
Theorem awq_without_library_yields_one_error_line :
  forall (E : Sys.Env) (model_id param token user : string) (w : Sys.World)
         (e : Sys.Exn) (fs' : Sys.FS),
    Py.strip param = "" ->
    Sys.lib E (Sys.Import "awq") w = (inl e, fs') ->
    App.quantize_awq E model_id param token user w
    = Gen.mkRun
        ["=== AWQ Quantization ===" ++ Py.nl;
         "[INFO] Using AWQ parameters: bits=4, group_size=128, version=GEMM, zero_point=True"
         ++ Py.nl;
         "[ERROR] Error during AWQ quantization: " ++ Sys.message e ++ Py.nl]
        (Gen.Done tt) (Sys.set_fs fs' w).
Proof.
  intros E model_id param token user w e fs' Hblank H.
  unfold App.quantize_awq, Gen.try_except, Gen.attempt.
  unfold Gen.bind at 1.
  erewrite GenFacts.bind_eq by reflexivity.
  erewrite GenFacts.bind_eq by (apply ParamFacts.awq_blank; exact Hblank).
  cbv beta iota. unfold App.awq_defaults. cbv beta iota.
  erewrite GenFacts.bind_eq by reflexivity.
  erewrite GenFacts.bind_raised by (apply ExecutorFacts.lib_call_failure; exact H).
  reflexivity.
Qed.

Lemma awq_without_library_yields_one_error_line_witness :
  App.quantize_awq Cases.no_libraries "org/modelA" "" "token" "user" Sample.empty_world
  = Gen.mkRun
      ["=== AWQ Quantization ===" ++ Py.nl;
       "[INFO] Using AWQ parameters: bits=4, group_size=128, version=GEMM, zero_point=True"
       ++ Py.nl;
       "[ERROR] Error during AWQ quantization: No module named 'awq'" ++ Py.nl]
      (Gen.Done tt) Sample.empty_world.
Proof.
  apply (@awq_without_library_yields_one_error_line Cases.no_libraries "org/modelA" ""
           "token" "user" Sample.empty_world (Cases.missing "awq") []).
  - reflexivity.
  - reflexivity.
Defined.

(* ================================================================== *)
(** * The batch loop *)
(* ================================================================== *)
Module BatchFacts.
Import Sys.
Import Gen.
Import Notions.
Import Control.
Import StrFacts.

Lemma completes_ret log : completes log (ret log).
Proof. intros w. exists log. split; [reflexivity | apply extends_refl]. Qed.

Lemma completes_bind log (m : Gen.t string) (k : string -> Gen.t string) :
  completes log m -> (forall log1, completes log1 (k log1)) -> completes log (bind m k).
Proof.
  intros Hm Hk w. destruct (Hm w) as [log1 [Ho He]].
  destruct (Hk log1 (final (m w))) as [log2 [Ho2 He2]].
  exists log2. unfold bind. rewrite Ho. cbn [outcome].
  split; [exact Ho2 | eapply extends_trans; eassumption].
Qed.

Lemma completes_get_world log (k : World -> Gen.t string) :
  (forall w, completes log (k w)) -> completes log (bind get_world k).
Proof. intros Hk w. exact (Hk w w). Qed.

Lemma fold_append_extends lines log : extends log (fold_left append lines log).
Proof.
  revert log. induction lines as [|l rest IH]; intros log; [apply extends_refl|].
  cbn [fold_left]. eapply extends_trans; [apply extends_append | apply IH].
Qed.

Lemma completes_relay log (g : Gen.t unit) : returns g -> completes log (App.relay g log).
Proof.
  intros Hg w. destruct (Hg w) as [[] Ho]. unfold App.relay. cbn [outcome].
  rewrite Ho. eexists. split; [reflexivity | apply fold_append_extends].
Qed.

Lemma completes_log_and_yield log s : completes log (App.log_and_yield s log).
Proof. intros w. exists (log ++ s). split; [reflexivity | apply extends_append]. Qed.

Lemma completes_for_each_log {A} (body : A -> string -> Gen.t string) l :
  (forall x log, In x l -> completes log (body x log)) ->
  forall log, completes log (App.for_each_log l body log).
Proof.
  induction l as [|x rest IH]; intros Hb log; cbn [App.for_each_log].
  - apply completes_ret.
  - apply completes_bind; [apply Hb; now left|].
    intros log1. apply IH. intros y log2 Hy. apply Hb. now right.
Qed.

Lemma returns_download E model_id token : returns (App.download_model E model_id token).
Proof.
  intros w. exists tt. exact (proj1 (DownloadFacts.download_model_run E model_id token w)).
Qed.

Lemma completes_remove_logged E what path wording log :
  completes log (App.remove_logged E what path wording log).
Proof.
  intros w. unfold App.remove_logged, bind, attempt, App.rmtree, ret.
  destruct (rmtree_failure E path w) as [[e kept]|]; cbn [yielded outcome final app];
    eexists; (split; [reflexivity | apply extends_append]).
Qed.

(** Without [delete_quantized], the deletion block lists no directory. *)
Lemma completes_cleanup E F model_id log :
  App.delete_quantized F = false -> completes log (App.cleanup E F model_id log).
Proof.
  intros Hq. unfold App.cleanup. apply completes_bind.
  - destruct (App.delete_original F); [|apply completes_ret].
    apply completes_get_world. intros w.
    destruct (path_exists _ (fs w)); [apply completes_remove_logged | apply completes_ret].
  - intros log1. rewrite Hq. apply completes_ret.
Qed.

(** Without GGUF and GPTQ, the selected methods are among the three
    executors whose body is one [try]. *)
Lemma selected_guarded F mp :
  App.gguf_sel F = false -> App.gptq_sel F = false -> In mp (App.selected_methods F) ->
  fst mp = "ExLlamaV2" \/ fst mp = "AWQ" \/ fst mp = "HQQ".
Proof.
  intros Hf Hg. unfold App.selected_methods. rewrite Hf, Hg.
  destruct (App.exllamav2_sel F), (App.awq_sel F), (App.hqq_sel F);
    cbn [app In]; intros H;
    repeat match goal with
           | H : _ \/ _ |- _ => destruct H as [H|H]
           | H : _ = mp |- _ => rewrite <- H; cbn [fst]; auto
           | H : False |- _ => contradiction
           end.
Qed.

Lemma completes_run_method E F model_id mp log :
  fst mp = "ExLlamaV2" \/ fst mp = "AWQ" \/ fst mp = "HQQ" ->
  completes log (App.run_method E F model_id mp log).
Proof.
  destruct mp as [method param]. cbn [fst]. intros H.
  unfold App.run_method.
  apply completes_bind; [apply completes_log_and_yield|]. intros log1.
  destruct H as [-> | [-> | ->]]; cbn [String.eqb Ascii.eqb Bool.eqb];
    apply completes_relay.
  - intros w. exists tt. apply ExecutorFacts.exllamav2_never_raises.
  - intros w. exists tt. apply ExecutorFacts.awq_never_raises.
  - intros w. exists tt. apply ExecutorFacts.hqq_never_raises.
Qed.

Lemma occurs_header log model_id :
  occurs (model_header model_id)
         (log ++ Py.nl ++ "=== Processing model: " ++ model_id ++ " ===" ++ Py.nl).
Proof.
  exists (log ++ Py.nl), "". unfold model_header.
  rewrite append_nil_r. now rewrite append_assoc.
Qed.

Lemma process_model_completes E F model_id log :
  App.gguf_sel F = false -> App.gptq_sel F = false -> App.delete_quantized F = false ->
  forall w, exists log',
    outcome (App.process_model E F model_id log w) = Done log'
    /\ extends log log'
    /\ occurs (model_header model_id) log'.
Proof.
  intros Hf Hg Hq w.
  assert (H : completes
                (log ++ Py.nl ++ "=== Processing model: " ++ model_id ++ " ===" ++ Py.nl)
                (App.process_model E F model_id log)).
  { unfold App.process_model.
    apply completes_bind; [apply completes_relay, returns_download|].
    intros log1.
    destruct (App.selected_methods F) as [|mp rest] eqn:Hsel;
      [apply completes_log_and_yield|].
    apply completes_bind.
    - apply completes_for_each_log. intros x log2 Hx.
      apply completes_run_method. apply (@selected_guarded F x Hf Hg).
      rewrite Hsel. exact Hx.
    - intros log2. apply completes_bind; [apply completes_cleanup, Hq|].
      intros log3 w3. exists log3. split; [reflexivity | apply extends_refl]. }
  destruct (H w) as [log' [Ho He]]. exists log'. split; [exact Ho|]. split.
  - eapply extends_trans; [apply extends_append | exact He].
  - eapply CleanupFacts.occurs_extends; [apply occurs_header | exact He].
Qed.

Lemma models_loop_completes E F :
  App.gguf_sel F = false -> App.gptq_sel F = false -> App.delete_quantized F = false ->
  forall models log w, exists log',
    outcome (App.for_each_log models (App.process_model E F) log w) = Done log'
    /\ extends log log'
    /\ forall m, In m models -> occurs (model_header m) log'.
Proof.
  intros Hf Hg Hq. induction models as [|m rest IH]; intros log w; cbn [App.for_each_log].
  - exists log. split; [reflexivity|]. split; [apply extends_refl|]. intros m [].
  - destruct (@process_model_completes E F m log Hf Hg Hq w) as [log1 [Ho1 [He1 Hh1]]].
    destruct (IH log1 (final (App.process_model E F m log w)))
      as [log2 [Ho2 [He2 Hh2]]].
    exists log2. unfold bind. rewrite Ho1. cbn [outcome].
    split; [exact Ho2|]. split; [eapply extends_trans; eassumption|].
    intros m' [<-|Hin].
    + eapply CleanupFacts.occurs_extends; eassumption.
    + now apply Hh2.
Qed.

Lemma last_snoc (l : list string) x d : last (l ++ [x]) d = x.
Proof.
  induction l as [|y l IH]; [reflexivity|].
  cbn [app]. destruct l as [|z l']; [reflexivity | exact IH].
Qed.

End BatchFacts.

(** X4. When neither GGUF nor GPTQ is selected and [delete_quantized] is
    off, the orchestrator never raises, whatever the collaborators do: the
    download and the ExLlamaV2, AWQ and HQQ executors catch every exception
    and the deletion of the original model is guarded. The run ends normally,
    its last transcript closes with the completion line, and that transcript
    holds the header of every model of the list. *)
Theorem batch_of_guarded_methods_processes_every_model :
  forall (E : Sys.Env) (F : App.Form) (w : Sys.World),
    App.gguf_sel F = false ->
    App.gptq_sel F = false ->
    App.delete_quantized F = false ->
    exists transcript,
      Gen.outcome (App.quant_tavern_ui E F w) = Gen.Done tt
      /\ last (Gen.yielded (App.quant_tavern_ui E F w)) ""
         = transcript ++ Py.nl ++ "=== Quantization Process Completed ===" ++ Py.nl
      /\ forall m, In m (App.model_list F) ->
           exists pre post,
             transcript
             = pre ++ ("=== Processing model: " ++ m ++ " ===" ++ Py.nl) ++ post.
Proof.
  intros E F w Hf Hg Hq.
  destruct (@BatchFacts.models_loop_completes E F Hf Hg Hq (App.model_list F)
              ("=== Starting SpongeQuant Quantization Process ===" ++ Py.nl) w)
    as [log' [Ho [_ Hh]]].
  exists log'. unfold App.quant_tavern_ui, Gen.bind. rewrite Ho.
  cbn [Gen.outcome Gen.yielded Gen.yield].
  split; [reflexivity|]. split; [apply BatchFacts.last_snoc|].
  intros m Hm. exact (Hh m Hm).
Qed.

(** An instance: two models whose directories are there, on a machine that
    cannot reach the hub and where every deletion fails. *)
Lemma batch_of_guarded_methods_processes_every_model_witness :
  exists transcript,
    Gen.outcome (App.quant_tavern_ui Sample.offline Cases.guarded_methods
                   (Sys.mkWorld ["models"; "models/a"; "models/b"] [])) = Gen.Done tt
    /\ last (Gen.yielded (App.quant_tavern_ui Sample.offline Cases.guarded_methods
                            (Sys.mkWorld ["models"; "models/a"; "models/b"] []))) ""
       = transcript ++ Py.nl ++ "=== Quantization Process Completed ===" ++ Py.nl
    /\ forall m, In m (App.model_list Cases.guarded_methods) ->
         exists pre post,
           transcript = pre ++ ("=== Processing model: " ++ m ++ " ===" ++ Py.nl) ++ post.
Proof.
  apply (@batch_of_guarded_methods_processes_every_model Sample.offline
           Cases.guarded_methods (Sys.mkWorld ["models"; "models/a"; "models/b"] []));
    reflexivity.
Defined.

(* ================================================================== *)
(** * Stripping and splitting *)
(* ================================================================== *)
Module PyFacts.
Import Control.

Lemma lstrip_blank s : blank s = true -> Py.lstrip s = "".
Proof.
  induction s as [|c r IH]; [reflexivity|]. cbn [blank Py.lstrip].
  intros H. apply andb_prop in H. destruct H as [Hc Hr]. rewrite Hc. now apply IH.
Qed.

Lemma lstrip_head s c r : Py.lstrip s = String c r -> Py.is_space c = false.
Proof.
  induction s as [|d t IH]; [discriminate|]. cbn [Py.lstrip].
  destruct (Py.is_space d) eqn:Hd; [exact IH|].
  intros H. injection H as <- _. exact Hd.
Qed.

Lemma lstrip_empty s : Py.lstrip s = "" -> blank s = true.
Proof.
  induction s as [|d t IH]; [reflexivity|]. cbn [Py.lstrip blank].
  destruct (Py.is_space d); [exact IH | discriminate].
Qed.

Lemma rstrip_empty s : Py.rstrip s = "" -> blank s = true.
Proof.
  induction s as [|d t IH]; [reflexivity|]. cbn [Py.rstrip blank].
  destruct (Py.rstrip t) as [|x y]; [|discriminate].
  destruct (Py.is_space d); [intros _; now apply IH | discriminate].
Qed.

Lemma rstrip_idem s : Py.rstrip (Py.rstrip s) = Py.rstrip s.
Proof.
  induction s as [|c r IH]; [reflexivity|]. cbn [Py.rstrip].
  destruct (Py.rstrip r) as [|d t] eqn:Hr.
  - destruct (Py.is_space c) eqn:Hc; [reflexivity|].
    cbn [Py.rstrip]. now rewrite Hc.
  - change (Py.rstrip (String c (String d t))) with
      (match Py.rstrip (String d t) with
       | EmptyString => if Py.is_space c then EmptyString else String c EmptyString
       | r' => String c r'
       end).
    rewrite IH. reflexivity.
Qed.

Lemma rstrip_head c r :
  Py.is_space c = false -> exists r', Py.rstrip (String c r) = String c r'.
Proof.
  intros Hc. cbn [Py.rstrip]. destruct (Py.rstrip r) as [|d t]; rewrite ?Hc; eauto.
Qed.

Lemma strip_idem s : Py.strip (Py.strip s) = Py.strip s.
Proof.
  unfold Py.strip. destruct (Py.lstrip s) as [|c r] eqn:Hl; [reflexivity|].
  pose proof (@lstrip_head s c r Hl) as Hc.
  destruct (@rstrip_head c r Hc) as [r' Hr].
  rewrite Hr. cbn [Py.lstrip]. rewrite Hc. rewrite <- Hr. apply rstrip_idem.
Qed.

Lemma strip_blank s : blank s = true -> Py.strip s = "".
Proof. intros H. unfold Py.strip. now rewrite (@lstrip_blank s H). Qed.

Lemma strip_empty s : Py.strip s = "" -> blank s = true.
Proof.
  unfold Py.strip. intros H. apply lstrip_empty.
  destruct (Py.lstrip s) as [|c r] eqn:Hl; [reflexivity|].
  pose proof (@lstrip_head s c r Hl) as Hc.
  apply rstrip_empty in H. cbn [blank] in H. rewrite Hc in H. discriminate H.
Qed.

Lemma blank_append a b : blank a = true -> blank b = true -> blank (a ++ b) = true.
Proof.
  induction a as [|c r IH]; [auto|]. cbn [blank append].
  intros H Hb. apply andb_prop in H. destruct H as [Hc Hr].
  rewrite Hc. now apply IH.
Qed.

(** The lines of a blank text are blank. *)
Lemma splitlines_from_blank n :
  forall s cur,
    String.length s <= n -> blank s = true -> blank cur = true ->
    Forall (fun l => blank l = true) (Py.splitlines_from cur s).
Proof.
  induction n as [|n IH]; intros s cur Hn Hs Hcur.
  - destruct s; [|cbn in Hn; lia]. cbn. destruct cur; cbn; auto.
  - destruct s as [|c r].
    + cbn. destruct cur; cbn; auto.
    + cbn [blank] in Hs. apply andb_prop in Hs. destruct Hs as [Hc Hr].
      cbn [String.length] in Hn.
      assert (Hrest : Forall (fun l => blank l = true) (Py.splitlines_from "" r)).
      { apply IH; [lia | exact Hr | reflexivity]. }
      assert (Hjoin : Forall (fun l => blank l = true)
                        (Py.splitlines_from (cur ++ String c "") r)).
      { apply IH; [lia | exact Hr |]. apply blank_append; [exact Hcur|].
        cbn [blank]. now rewrite Hc. }
      assert (Hskip : forall d r', r = String d r' ->
                Forall (fun l => blank l = true) (Py.splitlines_from "" r')).
      { intros d r' ->. cbn [blank] in Hr. apply andb_prop in Hr.
        cbn [String.length] in Hn. apply IH; [lia | apply Hr | reflexivity]. }
      cbn [Py.splitlines_from].
      destruct (Py.is_linebreak c); [|exact Hjoin].
      destruct c as [[] [] [] [] [] [] [] []];
        try (constructor; [exact Hcur | exact Hrest]).
      destruct r as [|d r']; [constructor; [exact Hcur | exact Hrest]|].
      destruct d as [[] [] [] [] [] [] [] []];
        try (constructor; [exact Hcur | exact Hrest]).
      constructor; [exact Hcur | exact (Hskip _ _ eq_refl)].
Qed.

Lemma model_list_blank F : blank (App.model_ids F) = true -> App.model_list F = [].
Proof.
  intros H. unfold App.model_list, Py.splitlines.
  pose proof (@splitlines_from_blank (String.length (App.model_ids F))
                (App.model_ids F) "" (le_n _) H eq_refl) as Hall.
  induction Hall as [|l ls Hl _ IH]; [reflexivity|].
  cbn [map filter]. rewrite (@strip_blank l Hl). exact IH.
Qed.

End PyFacts.

(** X5. When the list of model identifiers is blank (empty or whitespace
    and line breaks only), the orchestrator yields exactly one transcript,
    made of the opening and the completion lines, and touches nothing: no
    download, no process, no deletion. *)
Theorem blank_model_list_does_nothing :
  forall (E : Sys.Env) (F : App.Form) (w : Sys.World),
    Py.strip (App.model_ids F) = "" ->
    App.quant_tavern_ui E F w
    = Gen.mkRun
        [("=== Starting SpongeQuant Quantization Process ===" ++ Py.nl)
         ++ Py.nl ++ "=== Quantization Process Completed ===" ++ Py.nl]
        (Gen.Done tt) w.
Proof.
  intros E F w H. unfold App.quant_tavern_ui.
  rewrite (@PyFacts.model_list_blank F (@PyFacts.strip_empty _ H)).
  reflexivity.
Qed.

Lemma blank_model_list_does_nothing_witness :
  App.quant_tavern_ui Sample.env
    (App.mkForm ("  " ++ Py.nl ++ Py.nl ++ " ") "token" "user"
       true "Q4_K_M" true "" true "" true "" true "" true Sample.knobs true true)
    Sample.empty_world
  = Gen.mkRun
      [("=== Starting SpongeQuant Quantization Process ===" ++ Py.nl)
       ++ Py.nl ++ "=== Quantization Process Completed ===" ++ Py.nl]
      (Gen.Done tt) Sample.empty_world.
Proof.
  apply (blank_model_list_does_nothing Sample.env
           (App.mkForm ("  " ++ Py.nl ++ Py.nl ++ " ") "token" "user"
              true "Q4_K_M" true "" true "" true "" true "" true Sample.knobs true true)
           Sample.empty_world).
  reflexivity.
Defined.

(** X6. Every model identifier the orchestrator works on is non-empty and
    carries no whitespace at either end: stripping it again changes
    nothing. *)
Theorem model_list_entries_are_stripped :
  forall (F : App.Form) (m : string),
    In m (App.model_list F) -> m <> "" /\ Py.strip m = m.
Proof.
  intros F m H. unfold App.model_list in H.
  apply filter_In in H. destruct H as [Hin Ht].
  apply in_map_iff in Hin. destruct Hin as [l [<- _]].
  split.
  - intros He. rewrite He in Ht. discriminate Ht.
  - apply PyFacts.strip_idem.
Qed.

Lemma model_list_entries_are_stripped_witness :
  "org/b" <> "" /\ Py.strip "org/b" = "org/b".
Proof.
  apply (model_list_entries_are_stripped
           (App.mkForm ("  org/a " ++ Py.nl ++ "   " ++ Py.nl ++ " org/b") "token" "user"
              true "Q4_K_M" false "" false "" false "" false "" false Sample.knobs
              false false)
           "org/b").
  simpl. right. left. reflexivity.
Defined.

(** X7. When no method is selected, a model's turn consists of its download
    and one error line: the transcripts are those of the download followed
    by the one with the error, and the world is left as the download left
    it; the deletion block is not run, whatever [delete_original] and
    [delete_quantized] say. *)
Theorem no_method_selected_skips_the_deletions :
  forall (E : Sys.Env) (F : App.Form) (model_id log : string) (w : Sys.World),
    App.gguf_sel F = false -> App.gptq_sel F = false -> App.exllamav2_sel F = false ->
    App.awq_sel F = false -> App.hqq_sel F = false ->
    let d := App.download_model E model_id (App.hf_token F) w in
    let log0 := log ++ Py.nl ++ "=== Processing model: " ++ model_id ++ " ===" ++ Py.nl in
    let log1 := fold_left append (Gen.yielded d) log0 in
    let error :=
      "[ERROR] No quantization method selected for model. Please select at least one method."
      ++ Py.nl in
    App.process_model E F model_id log w
    = Gen.mkRun (App.snapshots log0 (Gen.yielded d) ++ [log1 ++ error])
                (Gen.Done (log1 ++ error)) (Gen.final d).
Proof.
  intros E F model_id log w H1 H2 H3 H4 H5 d log0 log1 error.
  unfold App.process_model, App.selected_methods.
  rewrite H1, H2, H3, H4, H5. cbn [app].
  fold log0.
  assert (Hd : Gen.outcome d = Gen.Done tt)
    by exact (proj1 (DownloadFacts.download_model_run E model_id (App.hf_token F) w)).
  erewrite GenFacts.bind_eq.
  2:{ unfold App.relay. fold d. rewrite Hd. reflexivity. }
  reflexivity.
Qed.

Lemma no_method_selected_skips_the_deletions_witness :
  Sys.calls
    (Gen.final
       (App.process_model Sample.env Cases.nothing_selected "org/modelA" ""
          (Sys.mkWorld ["models/modelA/config.json"; "models/modelA"] [])))
  = [].
Proof.
  rewrite (no_method_selected_skips_the_deletions Sample.env Cases.nothing_selected
             "org/modelA" ""
             (Sys.mkWorld ["models/modelA/config.json"; "models/modelA"] [])
             eq_refl eq_refl eq_refl eq_refl eq_refl).
  reflexivity.
Defined.

(* ================================================================== *)
(** * Patching the configuration *)
(* ================================================================== *)
Module ConfigFacts.
Import ConfigFile.

Lemma get_set_same k v d : dict_get k (dict_set k v d) = Some v.
Proof.
  induction d as [|[k' v'] rest IH]; cbn [dict_set dict_get].
  - now rewrite String.eqb_refl.
  - destruct (String.eqb k' k) eqn:He; cbn [dict_get].
    + now rewrite String.eqb_refl.
    + now rewrite He.
Qed.

Lemma get_set_other k k' v d : k <> k' -> dict_get k (dict_set k' v d) = dict_get k d.
Proof.
  intros Hne. induction d as [|[k0 v0] rest IH]; cbn [dict_set dict_get].
  - destruct (String.eqb_spec k' k); [congruence | reflexivity].
  - destruct (String.eqb_spec k0 k') as [->|Hk0]; cbn [dict_get].
    + destruct (String.eqb_spec k' k); [congruence | reflexivity].
    + destruct (String.eqb k0 k); [reflexivity | exact IH].
Qed.

Lemma get_del_same k d : dict_get k (dict_del k d) = None.
Proof.
  induction d as [|[k0 v0] rest IH]; [reflexivity|]. cbn [dict_del].
  destruct (String.eqb k0 k) eqn:He; [exact IH|]. cbn [dict_get]. now rewrite He.
Qed.

Lemma get_del_other k k' d : k <> k' -> dict_get k (dict_del k' d) = dict_get k d.
Proof.
  intros Hne. induction d as [|[k0 v0] rest IH]; [reflexivity|]. cbn [dict_del dict_get].
  destruct (String.eqb_spec k0 k') as [->|Hk0]; cbn [dict_get].
  - destruct (String.eqb_spec k' k); [congruence | exact IH].
  - destruct (String.eqb k0 k); [reflexivity | exact IH].
Qed.

Lemma del_absent k d : dict_get k d = None -> dict_del k d = d.
Proof.
  induction d as [|[k0 v0] rest IH]; [reflexivity|]. cbn [dict_get dict_del].
  destruct (String.eqb k0 k); [discriminate|]. intros H. now rewrite IH.
Qed.

Lemma set_same_value k v d : dict_get k d = Some v -> dict_set k v d = d.
Proof.
  induction d as [|[k0 v0] rest IH]; [discriminate|]. cbn [dict_get dict_set].
  destruct (String.eqb_spec k0 k) as [->|Hne].
  - intros H. injection H as ->. reflexivity.
  - intros H. now rewrite IH.
Qed.

(** Dropping a key when it is there is deleting it. *)
Lemma drop_is_del key d : (if dict_mem key d then dict_del key d else d) = dict_del key d.
Proof.
  unfold dict_mem. destruct (dict_get key d) eqn:H; [reflexivity|].
  symmetry. now apply del_absent.
Qed.

(** The two halves of the patch. *)
Definition normalise (d : Dict) : Dict :=
  match dict_get "rope_scaling" d with
  | Some (JDict rope_scaling) =>
      dict_set "rope_scaling"
        (JDict [("type", JStr "linear");
                ("factor", match dict_get "factor" rope_scaling with
                           | Some f => f
                           | None => JNum "1.0"
                           end)]) d
  | _ => d
  end.

Definition prune (d : Dict) : Dict :=
  dict_del "rope_type"
    (dict_del "original_max_position_embeddings"
       (dict_del "high_freq_factor" (dict_del "low_freq_factor" d))).

Lemma patch_eq d : patch_config_dict d = prune (normalise d).
Proof.
  unfold patch_config_dict, prune, removed_keys. fold (normalise d).
  cbn [fold_left]. now rewrite !drop_is_del.
Qed.

Lemma get_prune k d :
  dict_get k (prune d) = if existsb (String.eqb k) removed_keys then None else dict_get k d.
Proof.
  unfold prune, removed_keys. cbn [existsb].
  destruct (String.eqb_spec k "low_freq_factor") as [->|H1]; cbn [orb].
  { rewrite !get_del_other by discriminate. apply get_del_same. }
  destruct (String.eqb_spec k "high_freq_factor") as [->|H2]; cbn [orb].
  { rewrite !get_del_other by discriminate. apply get_del_same. }
  destruct (String.eqb_spec k "original_max_position_embeddings") as [->|H3]; cbn [orb].
  { rewrite !get_del_other by discriminate. apply get_del_same. }
  destruct (String.eqb_spec k "rope_type") as [->|H4]; cbn [orb].
  { apply get_del_same. }
  now rewrite !get_del_other by assumption.
Qed.

Lemma prune_absent d :
  (forall k, In k removed_keys -> dict_get k d = None) -> prune d = d.
Proof.
  intros H. unfold prune.
  rewrite (del_absent "low_freq_factor" d) by (apply H; cbn; auto).
  rewrite (del_absent "high_freq_factor" d) by (apply H; cbn; auto).
  rewrite (del_absent "original_max_position_embeddings" d) by (apply H; cbn; auto).
  apply del_absent. apply H. cbn; auto.
Qed.

Lemma prune_idem d : prune (prune d) = prune d.
Proof.
  apply prune_absent. intros k Hk. rewrite get_prune.
  destruct (existsb (String.eqb k) removed_keys) eqn:He; [reflexivity|].
  exfalso. assert (Hin : existsb (String.eqb k) removed_keys = true).
  { apply existsb_exists. exists k. split; [exact Hk | apply String.eqb_refl]. }
  congruence.
Qed.

Lemma get_rope_prune d : dict_get "rope_scaling" (prune d) = dict_get "rope_scaling" d.
Proof. now rewrite get_prune. Qed.

Lemma get_rope_normalise d rope :
  dict_get "rope_scaling" d = Some (JDict rope) ->
  dict_get "rope_scaling" (normalise d)
  = Some (JDict [("type", JStr "linear");
                 ("factor", match dict_get "factor" rope with
                            | Some f => f
                            | None => JNum "1.0"
                            end)]).
Proof. intros H. unfold normalise. rewrite H. apply get_set_same. Qed.

Lemma normalise_prune_normalise d : normalise (prune (normalise d)) = prune (normalise d).
Proof.
  unfold normalise at 1. rewrite get_rope_prune.
  destruct (dict_get "rope_scaling" d) as [[| | | | |rope]|] eqn:Hr;
    try (assert (Hn : normalise d = d) by (unfold normalise; now rewrite Hr);
         rewrite Hn, Hr; reflexivity).
  rewrite (@get_rope_normalise d rope Hr).
  cbn [dict_get String.eqb Ascii.eqb Bool.eqb].
  apply set_same_value.
  rewrite get_rope_prune. apply (@get_rope_normalise d rope Hr).
Qed.

End ConfigFacts.

(** X8. Patching a configuration twice gives what patching it once gives:
    [patch_model_config] can be applied again to a file it has patched
    without changing it. *)
Theorem patching_the_configuration_is_idempotent :
  forall d : ConfigFile.Dict,
    ConfigFile.patch_config_dict (ConfigFile.patch_config_dict d)
    = ConfigFile.patch_config_dict d.
Proof.
  intros d. rewrite !ConfigFacts.patch_eq.
  rewrite ConfigFacts.normalise_prune_normalise. apply ConfigFacts.prune_idem.
Qed.

(** X9. In the patched configuration the four keys [low_freq_factor],
    [high_freq_factor], [original_max_position_embeddings] and [rope_type]
    are absent; a [rope_scaling] that was a dictionary is exactly
    [{"type": "linear", "factor": f}], with [f] its former [factor], or [1.0]
    when it had none; a [rope_scaling] that was not a dictionary, and every
    other key, have the value they had. *)
Theorem patched_configuration_content :
  forall (d : ConfigFile.Dict) (k : string),
    ConfigFile.dict_get k (ConfigFile.patch_config_dict d)
    = if existsb (String.eqb k) ConfigFile.removed_keys then None
      else if String.eqb k "rope_scaling" then
        match ConfigFile.dict_get "rope_scaling" d with
        | Some (ConfigFile.JDict rope) =>
            Some (ConfigFile.JDict
                    [("type", ConfigFile.JStr "linear");
                     ("factor", match ConfigFile.dict_get "factor" rope with
                                | Some f => f
                                | None => ConfigFile.JNum "1.0"
                                end)])
        | other => other
        end
      else ConfigFile.dict_get k d.
Proof.
  intros d k. rewrite ConfigFacts.patch_eq, ConfigFacts.get_prune.
  destruct (existsb (String.eqb k) ConfigFile.removed_keys); [reflexivity|].
  destruct (String.eqb_spec k "rope_scaling") as [->|Hk].
  - destruct (ConfigFile.dict_get "rope_scaling" d) as [[| | | | |rope]|] eqn:Hr;
      try (unfold ConfigFacts.normalise; rewrite Hr; exact Hr).
    apply (@ConfigFacts.get_rope_normalise d rope Hr).
  - unfold ConfigFacts.normalise.
    destruct (ConfigFile.dict_get "rope_scaling" d) as [[| | | | |rope]|]; try reflexivity.
    now apply ConfigFacts.get_set_other.
Qed.

Example patch_llama31 :
  ConfigFile.patch_config_dict ConfigFile.llama31
  = [("architectures", ConfigFile.JList [ConfigFile.JStr "LlamaForCausalLM"]);
     ("rope_scaling",
      ConfigFile.JDict [("type", ConfigFile.JStr "linear");
                        ("factor", ConfigFile.JNum "8.0")]);
     ("vocab_size", ConfigFile.JNum "128256")].
Proof. reflexivity. Qed.

(* ================================================================== *)
(** * More on the publisher and on the GGUF and GPTQ executors *)
(* ================================================================== *)
Module MoreFacts.
Import Sys.
Import Gen.
Import Notions.

Lemma upper_char_idem c : Py.upper_char (Py.upper_char c) = Py.upper_char c.
Proof. destruct c as [[] [] [] [] [] [] [] []]; reflexivity. Qed.

Lemma lower_upper_char c : Py.lower_char (Py.upper_char c) = Py.lower_char c.
Proof. destruct c as [[] [] [] [] [] [] [] []]; reflexivity. Qed.

Lemma upper_idem s : Py.upper (Py.upper s) = Py.upper s.
Proof.
  unfold Py.upper. induction s as [|c r IH]; [reflexivity|].
  cbn [Py.map_chars]. now rewrite upper_char_idem, IH.
Qed.

Lemma lower_upper s : Py.lower (Py.upper s) = Py.lower s.
Proof.
  unfold Py.lower, Py.upper. induction s as [|c r IH]; [reflexivity|].
  cbn [Py.map_chars]. now rewrite lower_upper_char, IH.
Qed.

Lemma prefix_empty s : String.prefix "" s = true.
Proof. destruct s; reflexivity. Qed.

Lemma drop_prefix3 a b c s : Py.drop 3 (String a (String b (String c s))) = s.
Proof.
  unfold Py.drop. cbn [String.length Nat.sub substring].
  now rewrite Nat.sub_0_r, PublisherFacts.substring_all.
Qed.

Lemma yield_all_eq l w : yield_all l w = mkRun l (Done tt) w.
Proof.
  unfold yield_all. revert w. induction l as [|x rest IH]; intros w; [reflexivity|].
  cbn [for_each]. erewrite GenFacts.bind_eq by reflexivity.
  rewrite IH. reflexivity.
Qed.

Lemma chars_length s : List.length (Py.chars s) = String.length s.
Proof. induction s as [|c r IH]; cbn; [reflexivity | now rewrite IH]. Qed.

Lemma chars_single s : Forall (fun item => String.length item = 1) (Py.chars s).
Proof. induction s as [|c r IH]; cbn [Py.chars]; constructor; [reflexivity | exact IH]. Qed.

Lemma chars_concat s : fold_left append (Py.chars s) "" = s.
Proof.
  assert (H : forall acc, fold_left append (Py.chars s) acc = acc ++ s).
  { induction s as [|c r IH]; intros acc; cbn [Py.chars fold_left].
    - now rewrite StrFacts.append_nil_r.
    - rewrite IH. now rewrite StrFacts.append_assoc. }
  apply (H "").
Qed.

End MoreFacts.

(** X10. On method names made of ASCII characters, formatting is
    idempotent: a name that [format_quant_type] has produced is left as it
    is, so the destination derived from a formatted name is the same
    destination. *)
Theorem format_quant_type_is_idempotent_on_ascii :
  forall qt : string,
    Py.is_ascii qt = true ->
    App.format_quant_type (App.format_quant_type qt) = App.format_quant_type qt.
Proof.
  intros qt _. rewrite (PublisherFacts.format_quant_type_eq qt).
  destruct (Py.startswith "i1-" (Py.lower qt)) eqn:Hp.
  - rewrite PublisherFacts.format_quant_type_eq.
    change ("i1-" ++ Py.upper (Py.drop 3 qt))
      with (String "i" (String "1" (String "-" (Py.upper (Py.drop 3 qt))))).
    rewrite MoreFacts.drop_prefix3.
    cbn [Py.lower Py.map_chars Py.startswith String.prefix].
    change (Py.lower_char "i") with "i"%char.
    change (Py.lower_char "1") with "1"%char.
    change (Py.lower_char "-") with "-"%char.
    destruct (ascii_dec "i" "i") as [_|n]; [|now elim n].
    destruct (ascii_dec "1" "1") as [_|n]; [|now elim n].
    destruct (ascii_dec "-" "-") as [_|n]; [|now elim n].
    rewrite MoreFacts.prefix_empty. now rewrite MoreFacts.upper_idem.
  - rewrite PublisherFacts.format_quant_type_eq.
    rewrite MoreFacts.lower_upper, Hp. apply MoreFacts.upper_idem.
Qed.

Lemma format_quant_type_is_idempotent_on_ascii_witness :
  App.format_quant_type (App.format_quant_type "i1-iq2_xs") = App.format_quant_type "i1-iq2_xs".
Proof.
  apply (@format_quant_type_is_idempotent_on_ascii "i1-iq2_xs"). reflexivity.
Defined.

(** X11. An executor relays the publisher's log one character at a time:
    the items it yields for the upload are the characters of the text
    [upload_quant] returned, as many as that text is long, and put together
    again they are that text. *)
Theorem upload_log_is_relayed_by_character :
  forall (E : Sys.Env) (model_id base qt folder token user : string) (w : Sys.World),
    let log := fst (App.upload_quant E model_id base qt folder token user w) in
    let r := App.relay_upload E model_id base qt folder token user w in
    Gen.outcome r = Gen.Done tt
    /\ Gen.final r = snd (App.upload_quant E model_id base qt folder token user w)
    /\ List.length (Gen.yielded r) = String.length log
    /\ Forall (fun item => String.length item = 1) (Gen.yielded r)
    /\ fold_left append (Gen.yielded r) "" = log.
Proof.
  intros E model_id base qt folder token user w log r.
  subst log r. unfold App.relay_upload.
  destruct (App.upload_quant E model_id base qt folder token user w) as [log w'].
  rewrite MoreFacts.yield_all_eq. cbn [fst snd Gen.outcome Gen.final Gen.yielded].
  split; [reflexivity|]. split; [reflexivity|].
  split; [apply MoreFacts.chars_length|].
  split; [apply MoreFacts.chars_single | apply MoreFacts.chars_concat].
Qed.



(** X13. When [transformers] imports and the GPTQ parameter string, made of
    ASCII characters, has at least three fields of which the first is not an
    integer, [quantize_gptq] yields its banner and then raises the
    [ValueError] of [int], whose text ends with the [repr] of that field, cut
    after 200 characters; the method loop has no [try] either, so the
    exception leaves [run_method] after the line that announces GPTQ. *)
Theorem gptq_with_non_integer_ascii_bits_raises :
  forall (E : Sys.Env) (F : App.Form) (model_id param log : string) (w : Sys.World)
         (v : Sys.PyVal) (fs' : Sys.FS),
    Sys.lib E (Sys.Import "transformers") w = (inr v, fs') ->
    Py.is_ascii param = true ->
    Py.strip param <> "" ->
    3 <= List.length (Py.split "," param) ->
    Py.int (Py.strip (nth 0 (Py.split "," param) "")) = None ->
    let error :=
      Sys.mkExn Sys.ValueError
        ("invalid literal for int() with base 10: "
         ++ substring 0 200 (Py.repr (Py.strip (nth 0 (Py.split "," param) "")))) in
    App.quantize_gptq E model_id param (App.hf_token F) (App.username F) w
    = Gen.mkRun ["=== GPTQ Quantization ===" ++ Py.nl] (Gen.Raised error)
                (Sys.set_fs fs' w)
    /\ App.run_method E F model_id ("GPTQ", param) log w
       = Gen.mkRun
           [log ++ "[INFO] Running GPTQ quantization..." ++ Py.nl;
            (log ++ "[INFO] Running GPTQ quantization..." ++ Py.nl)
            ++ "=== GPTQ Quantization ===" ++ Py.nl]
           (Gen.Raised error) (Sys.set_fs fs' w).
Proof.
  intros E F model_id param log w v fs' Himp _ Hnb Hlen Hint error.
  assert (Hparams : App.gptq_params E param (Sys.set_fs fs' w)
                    = Gen.mkRun [] (Gen.Raised error) (Sys.set_fs fs' w)).
  { unfold App.gptq_params.
    rewrite (@ParamFacts.truthy_true _ Hnb).
    rewrite length_map.
    destruct (Nat.leb_spec 3 (List.length (Py.split "," param))) as [_|Hlt]; [|lia].
    unfold App.field.
    change "" with (Py.strip "") at 1.
    rewrite map_nth.
    erewrite GenFacts.bind_raised; [reflexivity|].
    unfold App.parse_int. rewrite Hint. reflexivity. }
  assert (Hq : App.quantize_gptq E model_id param (App.hf_token F) (App.username F) w
               = Gen.mkRun ["=== GPTQ Quantization ===" ++ Py.nl] (Gen.Raised error)
                           (Sys.set_fs fs' w)).
  { unfold App.quantize_gptq.
    erewrite GenFacts.bind_eq.
    2:{ unfold Gen.attempt, App.lib_call, Gen.call. rewrite Himp. reflexivity. }
    cbv beta iota.
    erewrite GenFacts.bind_eq by reflexivity.
    erewrite GenFacts.bind_raised by exact Hparams.
    reflexivity. }
  split; [exact Hq|].
  unfold App.run_method.
  erewrite GenFacts.bind_eq by reflexivity.
  cbn [String.eqb Ascii.eqb Bool.eqb].
  unfold App.relay. cbn [Gen.final Gen.ret Gen.yield]. rewrite Hq. reflexivity.
Qed.

(** An instance, with a field that holds an apostrophe: [repr] puts it
    between double quotes. *)
Lemma gptq_with_non_integer_ascii_bits_raises_witness :
  App.quantize_gptq Sample.env "org/a" "it's, 128, 0.1" "token" "user" Sample.empty_world
  = Gen.mkRun ["=== GPTQ Quantization ===" ++ Py.nl]
      (Gen.Raised
         (Sys.mkExn Sys.ValueError
            ("invalid literal for int() with base 10: " ++ Py.dq ++ "it's" ++ Py.dq)))
      Sample.empty_world.
Proof.
  apply (@gptq_with_non_integer_ascii_bits_raises Sample.env Sample.bad_gptq_form "org/a"
           "it's, 128, 0.1" "" Sample.empty_world Sys.PyNone []).
  - reflexivity.
  - reflexivity.
  - discriminate.
  - simpl. lia.
  - reflexivity.
Defined.

(** Cleaning up after model [foo] also takes the output of a model named
    [foo-bar], whose directory name starts with [foo-]. *)
Example cleanup_takes_longer_names_too :
  Sys.calls
    (Gen.final
       (App.cleanup Sample.env
          (App.mkForm "org/foo" "token" "user" true "Q4_K_M" false "" false ""
             true "" false "" false Sample.knobs false true)
          "org/foo" ""
          (Sys.mkWorld
             ["quantized_models"; "quantized_models/foo-GGUF";
              "quantized_models/foo-bar-GGUF"] [])))
  = [Sys.Rmtree "quantized_models/foo-GGUF"; Sys.Rmtree "quantized_models/foo-bar-GGUF"].
Proof. reflexivity. Qed.
